(** * soterd: the [dagdemo] orchestration and the [verack] wire message

    A shallow embedding of

    - [cmd/dagdemo/dagdemo.go]: [runNet], [save] and [main];
    - [wire/msgverack.go]: the [MsgVerAck] message.

    [runNet] talks to collaborators whose code lives elsewhere (the
    [rpctest] harness, the RPC client, [soterutil], the Go [os] and
    [ioutil] packages).  They are modelled as a [World]: for every call
    the world answers as a function of the whole history of calls made so
    far, and the program appends each call, with its answer, to that
    history.  Statements quantified over every [World] therefore cover
    every behaviour of the collaborators. *)

From Stdlib Require Import List String Ascii ZArith Lia Bool Arith.
From Stdlib Require Import DecimalString FinFun.
Import ListNotations.

Open Scope string_scope.
Open Scope list_scope.

(** ** Data *)

(** Go's [[]byte]. *)
Definition bytes := list Byte.byte.

(** Go's [error] values are observed through [Error()] only ([%s] in
    [fmt.Errorf], [fmt.Println]); a nil [error] is [None]. *)
Definition Error := string.

(** [*rpctest.Harness]: the harness built by the [id]-th successful call of
    [rpctest.New] in a run.  Distinct calls give distinct pointers. *)
Record Harness := mkHarness { h_id : nat }.

(** [rpcclient.FutureGenerateResult]: the pending answer to one
    [GenerateAsync] request. *)
Record Future := mkFuture { fut_node : Harness; fut_blocks : Z }.

(** [os.FileInfo], of which only [IsDir] is consulted. *)
Record FileInfo := mkFileInfo { IsDir : bool }.

(** [*os.File], of which only [Name] is consulted. *)
Record File := mkFile { Name : string }.

(** A Go result [(A, error)]. *)
Inductive Res (A : Type) : Type :=
| Ok (a : A)
| Err (e : Error).
Arguments Ok {A} a.
Arguments Err {A} e.

(** A Go result that is an [error] alone. *)
Definition check (e : option Error) : Res unit :=
  match e with
  | None => Ok tt
  | Some msg => Err msg
  end.

(** Calls to the collaborators, each with the answer it got. *)
Inductive Event : Type :=
| EvNew (i : nat) (r : option Error)
| EvSetUp (h : Harness) (r : option Error)
| EvTearDown (h : Harness) (r : option Error)
| EvConnectNodes (hs : list Harness) (r : option Error)
| EvGenerateAsync (h : Harness) (n : Z)
| EvReceive (f : Future) (r : Res (list bytes))
| EvRenderDagsDot (hs : list Harness) (r : Res bytes)
| EvDotToSvg (dot : bytes) (r : Res bytes)
| EvStripSvgXmlDecl (svg : bytes) (r : Res bytes)
| EvRenderSvgHTML (svg : bytes) (title : string) (r : Res bytes)
| EvStat (path : string) (r : Res FileInfo)
| EvTempFile (dir pattern : string) (r : Res string)
| EvOpenFile (path : string) (flag perm : Z) (r : option Error)
| EvWrite (fh : File) (data : bytes) (r : option Error)
| EvClose (fh : File) (r : option Error)
| EvStdout (s : string)
| EvExit (code : Z).

Definition Trace := list Event.

(** The collaborators.  Every answer may depend on the history. *)
Record World := mkWorld {
  w_New : Trace -> option Error;
  w_SetUp : Trace -> Harness -> option Error;
  w_TearDown : Trace -> Harness -> option Error;
  w_ConnectNodes : Trace -> list Harness -> option Error;
  w_Receive : Trace -> Future -> Res (list bytes);
  w_RenderDagsDot : Trace -> list Harness -> Res bytes;
  w_DotToSvg : Trace -> bytes -> Res bytes;
  w_StripSvgXmlDecl : Trace -> bytes -> Res bytes;
  w_RenderSvgHTML : Trace -> bytes -> string -> Res bytes;
  w_Stat : Trace -> string -> Res FileInfo;
  w_TempFile : Trace -> string -> string -> Res string;
  w_OpenFile : Trace -> string -> Z -> Z -> option Error;
  w_Write : Trace -> File -> bytes -> option Error;
  w_Close : Trace -> File -> option Error
}.

(** ** The monad of the orchestration: history passing with Go's early
    [return ..., err]. *)

Definition M (A : Type) : Type := Trace -> Trace * Res A.

Definition ret {A} (a : A) : M A := fun t => (t, Ok a).

Definition bind {A B} (m : M A) (k : A -> M B) : M B :=
  fun t =>
    match m t with
    | (t', Ok a) => k a t'
    | (t', Err e) => (t', Err e)
    end.

Notation "x <- m ;; k" := (bind m (fun x => k))
  (at level 61, m at next level, right associativity).
Notation "m ;;; k" := (bind m (fun _ => k))
  (at level 61, right associativity).

(** [if err != nil { return "", fmt.Errorf(ctx, err) }] *)
Definition orFail {A} (m : M A) (ctx : Error -> Error) : M A :=
  fun t =>
    match m t with
    | (t', Ok a) => (t', Ok a)
    | (t', Err e) => (t', Err (ctx e))
    end.

(** One call: ask the world, log the call with its answer. *)
Definition io {R A} (ask : Trace -> R) (ev : R -> Event) (res : R -> Res A)
  : M A :=
  fun t => let r := ask t in (t ++ [ev r], res r).

(** [defer cleanup] placed in front of [body]: the cleanup runs when the
    body returns, whatever it returns. *)
Definition defer {A} (cleanup : Trace -> Trace) (body : M A) : M A :=
  fun t => let (t', r) := body t in (cleanup t', r).

(** ** Go's formatting and conversions *)

(** [%d] of a non-negative [int]. *)
Definition itoa (n : nat) : string := NilEmpty.string_of_uint (Nat.to_uint n).

(** [uint32(x)] of an [int]. *)
Definition uint32 (x : Z) : Z := x mod 2 ^ 32.

Definition newline : string := String (ascii_of_nat 10) EmptyString.

(** [fmt.Println(a, b, ...)] of strings: operands separated by spaces, then
    a newline. *)
Definition Println (args : list string) : string :=
  (String.concat " " args ++ newline)%string.

(** Package [os] open flags (linux) and the permission of [runNet]. *)
Definition O_RDWR : Z := 2.
Definition O_CREATE : Z := 64.
Definition O_TRUNC : Z := 512.
Definition perm0644 : Z := 420.

(** ** cmd/dagdemo/dagdemo.go *)

Section Dagdemo.

Variable w : World.

Definition rpctest_New (i : nat) : M Harness :=
  io (w_New w) (EvNew i)
     (fun r => match r with None => Ok (mkHarness i) | Some e => Err e end).

Definition SetUp (miner : Harness) : M unit :=
  io (fun t => w_SetUp w t miner) (EvSetUp miner) check.

Definition rpctest_ConnectNodes (miners : list Harness) : M unit :=
  io (fun t => w_ConnectNodes w t miners) (EvConnectNodes miners) check.

Definition GenerateAsync (miner : Harness) (n : Z) : M Future :=
  io (fun _ => tt) (fun _ => EvGenerateAsync miner n)
     (fun _ => Ok (mkFuture miner n)).

Definition Receive (future : Future) : M (list bytes) :=
  io (fun t => w_Receive w t future) (EvReceive future) (fun r => r).

Definition rpctest_RenderDagsDot (miners : list Harness) : M bytes :=
  io (fun t => w_RenderDagsDot w t miners) (EvRenderDagsDot miners)
     (fun r => r).

Definition soterutil_DotToSvg (dot : bytes) : M bytes :=
  io (fun t => w_DotToSvg w t dot) (EvDotToSvg dot) (fun r => r).

Definition soterutil_StripSvgXmlDecl (svg : bytes) : M bytes :=
  io (fun t => w_StripSvgXmlDecl w t svg) (EvStripSvgXmlDecl svg)
     (fun r => r).

Definition soterutil_RenderSvgHTML (svg : bytes) (title : string) : M bytes :=
  io (fun t => w_RenderSvgHTML w t svg title) (EvRenderSvgHTML svg title)
     (fun r => r).

Definition os_Stat (path : string) : Trace -> Trace * Res FileInfo :=
  fun t => let r := w_Stat w t path in (t ++ [EvStat path r], r).

Definition ioutil_TempFile (dir pattern : string) : M File :=
  io (fun t => w_TempFile w t dir pattern) (EvTempFile dir pattern)
     (fun r => match r with Ok name => Ok (mkFile name) | Err e => Err e end).

(** [os.OpenFile]: the file's [Name] is the name it was opened with. *)
Definition os_OpenFile (path : string) (flag perm : Z) : M File :=
  io (fun t => w_OpenFile w t path flag perm) (EvOpenFile path flag perm)
     (fun r => match r with None => Ok (mkFile path) | Some e => Err e end).

Definition Write (fh : File) (data : bytes) : M unit :=
  io (fun t => w_Write w t fh data) (EvWrite fh data) check.

Definition Close (fh : File) : M unit :=
  io (fun t => w_Close w t fh) (EvClose fh) check.

(** Lines 26-37: [for i := 0; i < minerCount; i++]; [n] iterations are
    left, [i] is the loop variable. *)
Fixpoint spawnMiners (n i : nat) (miners : list Harness) : M (list Harness) :=
  match n with
  | O => ret miners
  | S n' =>
      miner <- orFail (rpctest_New i)
                 (fun err => ("unable to create mining node " ++ itoa i
                             ++ ": " ++ err)%string) ;;
      orFail (SetUp miner)
        (fun err => ("unable to complete mining node " ++ itoa i
                    ++ " setup: " ++ err)%string) ;;;
      spawnMiners n' (S i) (miners ++ [miner])
  end.

(** Lines 39-43: the deferred function; the result of [TearDown] is
    dropped. *)
Fixpoint tearDownMiners (miners : list Harness) (t : Trace) : Trace :=
  match miners with
  | [] => t
  | miner :: rest =>
      tearDownMiners rest (t ++ [EvTearDown miner (w_TearDown w t miner)])
  end.

(** Lines 52-56. *)
Fixpoint generateBlocks (miners : list Harness) (blockCount : Z)
  (futures : list Future) : M (list Future) :=
  match miners with
  | [] => ret futures
  | miner :: rest =>
      future <- GenerateAsync miner (uint32 blockCount) ;;
      generateBlocks rest blockCount (futures ++ [future])
  end.

(** Lines 59-64: [for i, future := range futures]. *)
Fixpoint waitForBlocks (futures : list Future) (i : nat) : M unit :=
  match futures with
  | [] => ret tt
  | future :: rest =>
      orFail (Receive future)
        (fun err => ("failed to wait for blocks to generate on node "
                    ++ itoa i ++ ": " ++ err)%string) ;;;
      waitForBlocks rest (S i)
  end.

(** Lines 66-88. *)
Definition renderDag (miners : list Harness) : M bytes :=
  dot <- orFail (rpctest_RenderDagsDot miners)
           (fun err => ("failed to render dag in graphviz DOT format: "
                       ++ err)%string) ;;
  svg <- orFail (soterutil_DotToSvg dot)
           (fun err => ("failed to convert DOT file to SVG: " ++ err)%string) ;;
  svgEmbed <- orFail (soterutil_StripSvgXmlDecl svg)
                (fun err => ("failed to strip xml declaration from SVG image: "
                            ++ err)%string) ;;
  orFail (soterutil_RenderSvgHTML svgEmbed "dag")
    (fun err => ("failed to render SVG image as HTML: " ++ err)%string).

Definition pattern : string := "dag_*.html".

(** Lines 91-109. *)
Definition openOutput (output : string) : M File :=
  orFail
    (if Nat.eqb (String.length output) 0 then
       ioutil_TempFile "" pattern
     else
       fun t =>
         let (t', st) := os_Stat output t in
         match st with
         | Ok info =>
             if IsDir info then ioutil_TempFile output pattern t'
             else os_OpenFile output
                    (Z.lor (Z.lor O_RDWR O_CREATE) O_TRUNC) perm0644 t'
         | Err _ =>
             os_OpenFile output
               (Z.lor (Z.lor O_RDWR O_CREATE) O_TRUNC) perm0644 t'
         end)
    (fun err => ("failed to create output file-handle: " ++ err)%string).

(** Lines 121-133. *)
Definition save (data : bytes) (fh : File) : M unit :=
  Write fh data ;;;
  Close fh ;;;
  ret tt.

(** Lines 45-117: what runs under the deferred teardown. *)
Definition runStages (miners : list Harness) (blockCount : Z)
  (output : string) : M string :=
  orFail (rpctest_ConnectNodes miners)
    (fun err => ("unable to connect nodes: " ++ err)%string) ;;;
  futures <- generateBlocks miners blockCount [] ;;
  waitForBlocks futures 0 ;;;
  h <- renderDag miners ;;
  fh <- openOutput output ;;
  orFail (save h fh) (fun err => ("failed to save HTML file: " ++ err)%string) ;;;
  ret (Name fh).

(** Lines 22-118.  The [defer] statement is reached only when the spawn
    loop has run to its end. *)
Definition runNetM (minerCount blockCount : Z) (output : string) : M string :=
  miners <- spawnMiners (Z.to_nat minerCount) 0 [] ;;
  defer (tearDownMiners miners) (runStages miners blockCount output).

Definition runNet (minerCount blockCount : Z) (output : string)
  : Trace -> Trace * (string * option Error) :=
  fun t =>
    match runNetM minerCount blockCount output t with
    | (t', Ok name) => (t', (name, None))
    | (t', Err e) => (t', ("", Some e))
    end.

(** Lines 135-147, from [fmt.Println("Generating dag")] on; [output] is the
    value of the [-o] flag.  The result is the exit code of the process. *)
Definition main (output : string) : Trace -> Trace * Z :=
  fun t =>
    let t0 := t ++ [EvStdout (Println ["Generating dag"])] in
    match runNet 4 50 output t0 with
    | (t1, (htmlFile, Some err)) =>
        (t1 ++ [EvStdout (Println [err]); EvExit 1], 1%Z)
    | (t1, (htmlFile, None)) =>
        (t1 ++ [EvStdout (Println ["Saved dag to"; htmlFile])], 0%Z)
    end.

End Dagdemo.

Arguments runNet w minerCount blockCount output t : simpl never.

(** ** Reading a history *)

(** The collaborator a call goes to. *)
Inductive Kind : Type :=
| KNew | KSetUp | KTearDown | KConnect | KGenerate | KReceive
| KRender | KOpen | KSave | KStdout | KExit.

Definition kind (e : Event) : Kind :=
  match e with
  | EvNew _ _ => KNew
  | EvSetUp _ _ => KSetUp
  | EvTearDown _ _ => KTearDown
  | EvConnectNodes _ _ => KConnect
  | EvGenerateAsync _ _ => KGenerate
  | EvReceive _ _ => KReceive
  | EvRenderDagsDot _ _ | EvDotToSvg _ _ | EvStripSvgXmlDecl _ _
  | EvRenderSvgHTML _ _ _ => KRender
  | EvStat _ _ | EvTempFile _ _ _ | EvOpenFile _ _ _ _ => KOpen
  | EvWrite _ _ _ | EvClose _ _ => KSave
  | EvStdout _ => KStdout
  | EvExit _ => KExit
  end.

Definition among (ks : list Kind) (e : Event) : Prop := In (kind e) ks.

(** The handles [TearDown] was called on, in order. *)
Definition teardowns (t : Trace) : list Harness :=
  flat_map (fun e => match e with EvTearDown h _ => [h] | _ => [] end) t.

(** The indices [rpctest.New] succeeded for: the handles created. *)
Definition created (t : Trace) : list Harness :=
  flat_map (fun e => match e with EvNew i None => [mkHarness i] | _ => [] end)
    t.

(** The futures [GenerateAsync] handed out, in order. *)
Definition dispatched (t : Trace) : list Future :=
  flat_map (fun e => match e with
                     | EvGenerateAsync h n => [mkFuture h n]
                     | _ => []
                     end) t.

(** The futures [Receive] was called on, in order. *)
Definition received (t : Trace) : list Future :=
  flat_map (fun e => match e with EvReceive f _ => [f] | _ => [] end) t.

(** The names of the files opened with success, in order. *)
Definition opened (t : Trace) : list string :=
  flat_map (fun e => match e with
                     | EvTempFile _ _ (Ok name) => [name]
                     | EvOpenFile path _ _ None => [path]
                     | _ => []
                     end) t.

(** A [Receive] that returned blocks. *)
Definition succeeded (e : Event) : Prop :=
  exists f blocks, e = EvReceive f (Ok blocks).

(** The flags [runNet] opens an exact destination with. *)
Definition openFlags : Z := Z.lor (Z.lor O_RDWR O_CREATE) O_TRUNC.

(** What [runNet] makes of the answer of [ioutil.TempFile]. *)
Definition tempFileResult (r : Res string) : Res File :=
  match r with
  | Ok name => Ok (mkFile name)
  | Err e => Err ("failed to create output file-handle: " ++ e)%string
  end.

(** What [runNet] makes of the answer of [os.OpenFile] on [path]. *)
Definition openFileResult (path : string) (r : option Error) : Res File :=
  match r with
  | None => Ok (mkFile path)
  | Some e => Err ("failed to create output file-handle: " ++ e)%string
  end.

(** The error [runNet] returns for a failed rendering call. *)
Definition renderFailure (ev : Event) : option Error :=
  match ev with
  | EvRenderDagsDot _ (Err e) =>
      Some ("failed to render dag in graphviz DOT format: " ++ e)%string
  | EvDotToSvg _ (Err e) =>
      Some ("failed to convert DOT file to SVG: " ++ e)%string
  | EvStripSvgXmlDecl _ (Err e) =>
      Some ("failed to strip xml declaration from SVG image: " ++ e)%string
  | EvRenderSvgHTML _ _ (Err e) =>
      Some ("failed to render SVG image as HTML: " ++ e)%string
  | _ => None
  end.

(** The kinds of the calls made under the deferred teardown. *)
Definition stageKinds : list Kind :=
  [KConnect; KGenerate; KReceive; KRender; KOpen; KSave].

(** A call whose failure fails the run: every call with an error answer
    but [os.Stat] (its error selects the exact-file branch) and [TearDown]
    (its error is dropped). *)
Definition failed (e : Event) : bool :=
  match e with
  | EvNew _ (Some _) | EvSetUp _ (Some _) | EvConnectNodes _ (Some _)
  | EvReceive _ (Err _) | EvRenderDagsDot _ (Err _) | EvDotToSvg _ (Err _)
  | EvStripSvgXmlDecl _ (Err _) | EvRenderSvgHTML _ _ (Err _)
  | EvTempFile _ _ (Err _) | EvOpenFile _ _ _ (Some _)
  | EvWrite _ _ (Some _) | EvClose _ (Some _) => true
  | _ => false
  end.


(** The paths [os.Stat] was asked about, in order. *)
Definition statted (t : Trace) : list string :=
  flat_map (fun e => match e with EvStat path _ => [path] | _ => [] end) t.

(** The files [Close] was called on, in order. *)
Definition closed (t : Trace) : list File :=
  flat_map (fun e => match e with EvClose fh _ => [fh] | _ => [] end) t.

(** The calls that provision miners [i], [i+1], ..., [i+n-1] with success. *)
Definition provisioning (i n : nat) : Trace :=
  flat_map (fun j => [EvNew j None; EvSetUp (mkHarness j) None]) (seq i n).

(** [m] stops at the first failed call: when it returns a result it has
    appended calls that did not fail, and when it returns an error the last
    call it appended failed and is the only one that did. *)
Definition FailFast {A} (m : M A) : Prop :=
  forall t, exists evs,
    fst (m t) = t ++ evs /\
    match snd (m t) with
    | Ok _ => Forall (fun e => failed e = false) evs
    | Err _ =>
        exists evs0 ev,
          evs = evs0 ++ [ev] /\ Forall (fun e => failed e = false) evs0 /\
          failed ev = true
    end.

(** ** Worlds to run the program in *)

(** Every collaborator succeeds; [/srv/dags] is a directory and no other
    path exists yet; the temporary file gets the name [dag_1.html] in the
    directory asked for, [/tmp] when none is. *)
Definition calm : World :=
  {| w_New := fun _ => None;
     w_SetUp := fun _ _ => None;
     w_TearDown := fun _ _ => None;
     w_ConnectNodes := fun _ _ => None;
     w_Receive := fun _ _ => Ok [];
     w_RenderDagsDot := fun _ _ => Ok [];
     w_DotToSvg := fun _ dot => Ok dot;
     w_StripSvgXmlDecl := fun _ svg => Ok svg;
     w_RenderSvgHTML := fun _ svg _ => Ok svg;
     w_Stat := fun _ path =>
       if String.eqb path "/srv/dags" then Ok (mkFileInfo true)
       else Err "no such file or directory";
     w_TempFile := fun _ dir _ =>
       Ok ((if Nat.eqb (String.length dir) 0 then "/tmp" else dir)
           ++ "/dag_1.html")%string;
     w_OpenFile := fun _ _ _ _ => None;
     w_Write := fun _ _ _ => None;
     w_Close := fun _ _ => None |}.

(** [base] with other answers of [rpctest.New]. *)
Definition withNew (base : World) (f : Trace -> option Error) : World :=
  {| w_New := f;
     w_SetUp := w_SetUp base;
     w_TearDown := w_TearDown base;
     w_ConnectNodes := w_ConnectNodes base;
     w_Receive := w_Receive base;
     w_RenderDagsDot := w_RenderDagsDot base;
     w_DotToSvg := w_DotToSvg base;
     w_StripSvgXmlDecl := w_StripSvgXmlDecl base;
     w_RenderSvgHTML := w_RenderSvgHTML base;
     w_Stat := w_Stat base;
     w_TempFile := w_TempFile base;
     w_OpenFile := w_OpenFile base;
     w_Write := w_Write base;
     w_Close := w_Close base |}.

(** [base] with other answers of [SetUp]. *)
Definition withSetUp (base : World)
  (su : Trace -> Harness -> option Error) : World :=
  {| w_New := w_New base;
     w_SetUp := su;
     w_TearDown := w_TearDown base;
     w_ConnectNodes := w_ConnectNodes base;
     w_Receive := w_Receive base;
     w_RenderDagsDot := w_RenderDagsDot base;
     w_DotToSvg := w_DotToSvg base;
     w_StripSvgXmlDecl := w_StripSvgXmlDecl base;
     w_RenderSvgHTML := w_RenderSvgHTML base;
     w_Stat := w_Stat base;
     w_TempFile := w_TempFile base;
     w_OpenFile := w_OpenFile base;
     w_Write := w_Write base;
     w_Close := w_Close base |}.

(** [base] with other answers of [TearDown] and [ConnectNodes]. *)
Definition withTearDownConnect (base : World)
  (td : Trace -> Harness -> option Error)
  (cn : Trace -> list Harness -> option Error) : World :=
  {| w_New := w_New base;
     w_SetUp := w_SetUp base;
     w_TearDown := td;
     w_ConnectNodes := cn;
     w_Receive := w_Receive base;
     w_RenderDagsDot := w_RenderDagsDot base;
     w_DotToSvg := w_DotToSvg base;
     w_StripSvgXmlDecl := w_StripSvgXmlDecl base;
     w_RenderSvgHTML := w_RenderSvgHTML base;
     w_Stat := w_Stat base;
     w_TempFile := w_TempFile base;
     w_OpenFile := w_OpenFile base;
     w_Write := w_Write base;
     w_Close := w_Close base |}.

(** [base] with other answers of [Receive]. *)
Definition withReceive (base : World)
  (rc : Trace -> Future -> Res (list bytes)) : World :=
  {| w_New := w_New base;
     w_SetUp := w_SetUp base;
     w_TearDown := w_TearDown base;
     w_ConnectNodes := w_ConnectNodes base;
     w_Receive := rc;
     w_RenderDagsDot := w_RenderDagsDot base;
     w_DotToSvg := w_DotToSvg base;
     w_StripSvgXmlDecl := w_StripSvgXmlDecl base;
     w_RenderSvgHTML := w_RenderSvgHTML base;
     w_Stat := w_Stat base;
     w_TempFile := w_TempFile base;
     w_OpenFile := w_OpenFile base;
     w_Write := w_Write base;
     w_Close := w_Close base |}.

(** [base] with other answers of [soterutil.DotToSvg]. *)
Definition withDotToSvg (base : World) (cv : Trace -> bytes -> Res bytes)
  : World :=
  {| w_New := w_New base;
     w_SetUp := w_SetUp base;
     w_TearDown := w_TearDown base;
     w_ConnectNodes := w_ConnectNodes base;
     w_Receive := w_Receive base;
     w_RenderDagsDot := w_RenderDagsDot base;
     w_DotToSvg := cv;
     w_StripSvgXmlDecl := w_StripSvgXmlDecl base;
     w_RenderSvgHTML := w_RenderSvgHTML base;
     w_Stat := w_Stat base;
     w_TempFile := w_TempFile base;
     w_OpenFile := w_OpenFile base;
     w_Write := w_Write base;
     w_Close := w_Close base |}.

(** The conversion of DOT to SVG fails. *)
Definition svgBroken : World :=
  withDotToSvg calm (fun _ _ => Err "dot: not found").

(** The third call of [rpctest.New] fails. *)
Definition thirdNewFails : World :=
  withNew calm
    (fun t => if Nat.eqb (List.length (created t)) 2 then Some "boom" else None).

(** [SetUp] fails on the second harness. *)
Definition secondSetUpFails : World :=
  withSetUp calm
    (fun _ h => if Nat.eqb (h_id h) 1 then Some "no free port" else None).

(** Every [TearDown] fails, and so does [ConnectNodes]. *)
Definition stormy : World :=
  withTearDownConnect calm (fun _ _ => Some "stuck")
    (fun _ _ => Some "refused").

(** [Receive] fails on the future of node [i] and on no other. *)
Definition receiveFailsOn (i : nat) : World :=
  withReceive calm
    (fun _ f => if Nat.eqb (h_id (fut_node f)) i then Err "timeout"
                else Ok []).

(** [base] with other answers of [Write]. *)
Definition withWrite (base : World)
  (wr : Trace -> File -> bytes -> option Error) : World :=
  {| w_New := w_New base;
     w_SetUp := w_SetUp base;
     w_TearDown := w_TearDown base;
     w_ConnectNodes := w_ConnectNodes base;
     w_Receive := w_Receive base;
     w_RenderDagsDot := w_RenderDagsDot base;
     w_DotToSvg := w_DotToSvg base;
     w_StripSvgXmlDecl := w_StripSvgXmlDecl base;
     w_RenderSvgHTML := w_RenderSvgHTML base;
     w_Stat := w_Stat base;
     w_TempFile := w_TempFile base;
     w_OpenFile := w_OpenFile base;
     w_Write := wr;
     w_Close := w_Close base |}.

(** Every [Write] fails. *)
Definition diskFull : World :=
  withWrite calm (fun _ _ _ => Some "no space left on device").

(** ** wire/msgverack.go *)

Module wire.

(** An [io.Reader]: the bytes it has yet to deliver. *)
Definition Reader := bytes.

(** An [io.Writer]: the bytes written to it so far. *)
Definition Writer := bytes.

(** [type MsgVerAck struct{}] *)
Inductive MsgVerAck : Type := mkMsgVerAck.

Section Message.

(** [MessageEncoding] and [CmdVerAck] are declared in [wire/message.go]. *)
Variable MessageEncoding : Type.
Variable CmdVerAck : string.

(** The receiver and the reader after the call, and the error returned. *)
Definition SotoDecode (msg : MsgVerAck) (r : Reader) (pver : Z)
  (enc : MessageEncoding) : MsgVerAck * Reader * option Error :=
  (msg, r, None).

(** The receiver and the writer after the call, and the error returned. *)
Definition SotoEncode (msg : MsgVerAck) (wr : Writer) (pver : Z)
  (enc : MessageEncoding) : MsgVerAck * Writer * option Error :=
  (msg, wr, None).

Definition Command (msg : MsgVerAck) : string := CmdVerAck.

Definition MaxPayloadLength (msg : MsgVerAck) (pver : Z) : Z := 0.

Definition NewMsgVerAck : MsgVerAck := mkMsgVerAck.

End Message.

End wire.

(** The handles of a run of [n] miners. *)
Definition handles (n : nat) : list Harness := map mkHarness (seq 0 n).

(** The future of node [h] in a run generating [blockCount] blocks. *)
Definition futureOf (blockCount : Z) (h : Harness) : Future :=
  mkFuture h (uint32 blockCount).

Definition Harness_eq_dec (a b : Harness) : {a = b} + {a <> b}.
Proof. decide equality. apply Nat.eq_dec. Defined.

(** [m] only appends to the history, and only events satisfying [P]. *)
Definition Emits {A} (P : Event -> Prop) (m : M A) : Prop :=
  forall t, exists evs, fst (m t) = t ++ evs /\ Forall P evs.

(** ** Projections of a history *)

Lemma teardowns_app a b : teardowns (a ++ b) = teardowns a ++ teardowns b.
Proof. apply flat_map_app. Qed.

Lemma dispatched_app a b : dispatched (a ++ b) = dispatched a ++ dispatched b.
Proof. apply flat_map_app. Qed.

Lemma opened_app a b : opened (a ++ b) = opened a ++ opened b.
Proof. apply flat_map_app. Qed.

Lemma created_app a b : created (a ++ b) = created a ++ created b.
Proof. apply flat_map_app. Qed.

Section Projections.

Variables (X : Type) (f : Event -> list X) (ks : list Kind).
Hypothesis f_kind : forall e, among ks e -> f e = [].

Lemma flat_map_among_nil (evs : Trace) :
  Forall (among ks) evs -> flat_map f evs = [].
Proof.
  induction 1 as [|e evs He _ IH]; simpl; [reflexivity|].
  now rewrite (f_kind e He), IH.
Qed.

End Projections.

Lemma Forall_among_weaken (ks ks' : list Kind) (evs : Trace) :
  incl ks ks' -> Forall (among ks) evs -> Forall (among ks') evs.
Proof.
  intros Hi. apply Forall_impl. intros e He. apply Hi, He.
Qed.

Ltac kinds_nil :=
  match goal with
  | H : Forall (among ?ks) ?evs |- ?p ?evs = [] =>
      unfold p; apply (flat_map_among_nil _ _ ks); [|exact H];
      let e := fresh "e" in let He := fresh "He" in
      intros e He; unfold among in He; simpl in He;
      destruct e; simpl in He; try reflexivity;
      repeat (destruct He as [He|He]; try discriminate He);
      try contradiction
  end.

(** ** Stages only append, and what they append *)

Lemma Emits_ret {A} P (a : A) : Emits P (ret a).
Proof. intros t. exists []. simpl. now rewrite app_nil_r. Qed.

Lemma Emits_bind {A B} P (m : M A) (k : A -> M B) :
  Emits P m -> (forall a, Emits P (k a)) -> Emits P (bind m k).
Proof.
  intros Hm Hk t. unfold bind.
  destruct (Hm t) as (evs & E & F).
  destruct (m t) as [t' [a|e]]; simpl in E; subst t'.
  - destruct (Hk a (t ++ evs)) as (evs' & E' & F').
    exists (evs ++ evs'). rewrite E', app_assoc. split; [reflexivity|].
    apply Forall_app; now split.
  - now exists evs.
Qed.

Lemma Emits_orFail {A} P (m : M A) ctx : Emits P m -> Emits P (orFail m ctx).
Proof.
  intros Hm t. unfold orFail. destruct (Hm t) as (evs & E & F).
  exists evs. destruct (m t) as [t' [a|e]]; now split.
Qed.

Lemma Emits_io {R A} (P : Event -> Prop) (ask : Trace -> R) ev
  (res : R -> Res A) :
  (forall r, P (ev r)) -> Emits P (io ask ev res).
Proof.
  intros H t. exists [ev (ask t)]. split; [reflexivity|].
  now constructor.
Qed.

Lemma Emits_weaken {A} (P Q : Event -> Prop) (m : M A) :
  (forall e, P e -> Q e) -> Emits P m -> Emits Q m.
Proof.
  intros H Hm t. destruct (Hm t) as (evs & E & F).
  exists evs. split; [exact E|]. revert F. now apply Forall_impl.
Qed.

Ltac emits_step :=
  first
    [ apply Emits_ret
    | apply Emits_bind; [|intro]
    | apply Emits_orFail
    | apply Emits_io; intro; unfold among; simpl; tauto ].

Ltac incl_kinds :=
  let k := fresh "k" in let Hk := fresh "Hk" in
  intros k Hk; simpl in Hk |- *; tauto.

Section Stages.

Variable w : World.

Lemma spawnMiners_emits n : forall i miners,
  Emits (among [KNew; KSetUp]) (spawnMiners w n i miners).
Proof.
  induction n as [|n IH]; intros i miners; simpl.
  - apply Emits_ret.
  - unfold rpctest_New, SetUp. repeat emits_step. apply IH.
Qed.

Lemma spawnMiners_result n : forall i miners t t' ms,
  spawnMiners w n i miners t = (t', Ok ms) ->
  ms = miners ++ map mkHarness (seq i n).
Proof.
  induction n as [|n IH]; intros i miners t t' ms; simpl.
  - unfold ret. intros [= _ <-]. now rewrite app_nil_r.
  - unfold bind, orFail, rpctest_New, SetUp, io.
    destruct (w_New w t); [discriminate|].
    destruct (w_SetUp w _ _); simpl; [discriminate|].
    intros H. apply IH in H. now rewrite <- app_assoc in H.
Qed.

Lemma tearDownMiners_spec miners : forall t,
  exists evs, tearDownMiners w miners t = t ++ evs
              /\ Forall (among [KTearDown]) evs
              /\ teardowns evs = miners.
Proof.
  induction miners as [|m ms IH]; intros t; simpl.
  - exists []. now rewrite app_nil_r.
  - destruct (IH (t ++ [EvTearDown m (w_TearDown w t m)]))
      as (evs & E & F & T).
    exists (EvTearDown m (w_TearDown w t m) :: evs).
    rewrite E, <- app_assoc. simpl. repeat split.
    + constructor; [unfold among; simpl; tauto | exact F].
    + now rewrite T.
Qed.

Lemma generateBlocks_spec miners blockCount : forall futures t,
  generateBlocks miners blockCount futures t
  = (t ++ map (fun h => EvGenerateAsync h (uint32 blockCount)) miners,
     Ok (futures ++ map (futureOf blockCount) miners)).
Proof.
  induction miners as [|m ms IH]; intros futures t; simpl.
  - unfold ret. now rewrite !app_nil_r.
  - unfold bind, GenerateAsync, io. rewrite IH, <- !app_assoc. reflexivity.
Qed.

Lemma waitForBlocks_emits futures : forall i,
  Emits (among [KReceive]) (waitForBlocks w futures i).
Proof.
  induction futures as [|f fs IH]; intros i; simpl.
  - apply Emits_ret.
  - unfold Receive. repeat emits_step. apply IH.
Qed.

Lemma renderDag_emits miners : Emits (among [KRender]) (renderDag w miners).
Proof.
  unfold renderDag, rpctest_RenderDagsDot, soterutil_DotToSvg,
    soterutil_StripSvgXmlDecl, soterutil_RenderSvgHTML.
  repeat emits_step.
Qed.

Lemma openOutput_emits output : Emits (among [KOpen]) (openOutput w output).
Proof.
  unfold openOutput. apply Emits_orFail.
  destruct (Nat.eqb _ _).
  - unfold ioutil_TempFile. emits_step.
  - intros t. unfold os_Stat.
    set (t' := t ++ [EvStat output (w_Stat w t output)]).
    assert (H : forall (m : M File), Emits (among [KOpen]) m ->
              exists evs, fst (m t') = t ++ evs /\ Forall (among [KOpen]) evs).
    { intros m Hm. destruct (Hm t') as (evs & E & F).
      exists (EvStat output (w_Stat w t output) :: evs).
      rewrite E. unfold t'. rewrite <- app_assoc. split; [reflexivity|].
      constructor; [unfold among; simpl; tauto | exact F]. }
    destruct (w_Stat w t output) as [[[|]]|e]; apply H;
      unfold ioutil_TempFile, os_OpenFile; emits_step.
Qed.

Lemma save_emits data fh : Emits (among [KSave]) (save w data fh).
Proof. unfold save, Write, Close. repeat emits_step. Qed.

Lemma among_incl {A} ks ks' (m : M A) :
  incl ks ks' -> Emits (among ks) m -> Emits (among ks') m.
Proof. intros Hi. apply Emits_weaken. intros e He. apply Hi, He. Qed.

Lemma runStages_emits miners blockCount output :
  Emits (among stageKinds) (runStages w miners blockCount output).
Proof.
  unfold runStages, stageKinds.
  apply Emits_bind; [unfold rpctest_ConnectNodes; repeat emits_step|intros _].
  apply Emits_bind; [|intros futures].
  { intros t. rewrite generateBlocks_spec. eexists. split; [reflexivity|].
    apply Forall_forall. intros e He. apply in_map_iff in He.
    destruct He as (h & <- & _). unfold among; simpl; tauto. }
  apply Emits_bind; [|intros _].
  { apply among_incl with (ks := [KReceive]); [incl_kinds|].
    apply waitForBlocks_emits. }
  apply Emits_bind; [|intros h].
  { apply among_incl with (ks := [KRender]); [incl_kinds|].
    apply renderDag_emits. }
  apply Emits_bind; [|intros fh].
  { apply among_incl with (ks := [KOpen]); [incl_kinds|].
    apply openOutput_emits. }
  apply Emits_bind; [|intros _; apply Emits_ret].
  apply Emits_orFail.
  apply among_incl with (ks := [KSave]); [incl_kinds|]. apply save_emits.
Qed.

(** The history of a run: the spawn loop, then, when the loop has run to
    its end, the stages and the deferred teardown of every handle. *)
Lemma runNetM_trace minerCount blockCount output t :
  exists S, Forall (among [KNew; KSetUp]) S /\
    match spawnMiners w (Z.to_nat minerCount) 0 [] t with
    | (t1, Err e) =>
        t1 = t ++ S /\ runNetM w minerCount blockCount output t = (t1, Err e)
    | (t1, Ok miners) =>
        miners = handles (Z.to_nat minerCount) /\ t1 = t ++ S /\
        exists B T,
          Forall (among stageKinds) B /\ Forall (among [KTearDown]) T /\
          teardowns T = miners /\
          fst (runStages w miners blockCount output t1) = t1 ++ B /\
          runNetM w minerCount blockCount output t
          = (t1 ++ B ++ T, snd (runStages w miners blockCount output t1))
    end.
Proof.
  destruct (spawnMiners_emits (Z.to_nat minerCount) 0 [] t) as (S & E & F).
  exists S. split; [exact F|]. unfold runNetM, bind.
  destruct (spawnMiners w _ 0 [] t) as [t1 [miners|e]] eqn:Es;
    simpl in E; subst t1; [|now split].
  apply spawnMiners_result in Es. simpl in Es. split; [exact Es|].
  split; [reflexivity|].
  destruct (runStages_emits miners blockCount output (t ++ S))
    as (B & EB & FB).
  destruct (tearDownMiners_spec miners ((t ++ S) ++ B)) as (T & ET & FT & TT).
  exists B, T. repeat split; try assumption.
  unfold defer.
  destruct (runStages w miners blockCount output (t ++ S)) as [t2 r].
  simpl in EB |- *. subst t2. rewrite ET, <- !app_assoc. reflexivity.
Qed.

End Stages.

Lemma fst_runNet w minerCount blockCount output t :
  fst (runNet w minerCount blockCount output t)
  = fst (runNetM w minerCount blockCount output t).
Proof.
  unfold runNet. now destruct (runNetM _ _ _ _ _) as [t' [name|e]].
Qed.

Lemma snd_runNet w minerCount blockCount output t :
  snd (runNet w minerCount blockCount output t)
  = match snd (runNetM w minerCount blockCount output t) with
    | Ok name => (name, None)
    | Err e => (""%string, Some e)
    end.
Proof.
  unfold runNet. now destruct (runNetM _ _ _ _ _) as [t' [name|e]].
Qed.

Lemma handles_NoDup n : NoDup (handles n).
Proof.
  unfold handles. apply Injective_map_NoDup; [|apply seq_NoDup].
  intros a b [= E]. exact E.
Qed.

Lemma handles_length n : List.length (handles n) = n.
Proof. unfold handles. now rewrite length_map, length_seq. Qed.

(** Once the spawn loop has run to its end, the run calls [TearDown] on
    the handles of the loop, in order, and on nothing else. *)
Lemma runNet_teardowns w minerCount blockCount output t1 miners :
  spawnMiners w (Z.to_nat minerCount) 0 [] [] = (t1, Ok miners) ->
  miners = handles (Z.to_nat minerCount) /\
  teardowns (fst (runNet w minerCount blockCount output [])) = miners.
Proof.
  intros Hs. rewrite fst_runNet.
  destruct (runNetM_trace w minerCount blockCount output []) as (S & FS & H).
  rewrite Hs in H. destruct H as (Hm & E1 & B & T & FB & FT & TT & _ & E).
  split; [exact Hm|]. rewrite E. simpl fst. subst t1. simpl.
  rewrite !teardowns_app.
  assert (ES : teardowns S = []) by kinds_nil.
  assert (EB : teardowns B = []) by (unfold stageKinds in FB; kinds_nil).
  now rewrite ES, EB, TT.
Qed.

(** ** Teardown *)

(** C3.  Once every handle is provisioned (the spawn loop has run to its
    end), [TearDown] is called exactly once on each handle, whatever the
    collaborators answer afterwards: on normal completion, on the error of
    any stage, and whatever the [TearDown] calls themselves return. *)
Theorem teardown_once_per_handle w minerCount blockCount output t1 miners :
  spawnMiners w (Z.to_nat minerCount) 0 [] [] = (t1, Ok miners) ->
  let t := fst (runNet w minerCount blockCount output []) in
  miners = handles (Z.to_nat minerCount) /\
  teardowns t = miners /\
  (forall h, In h miners -> count_occ Harness_eq_dec (teardowns t) h = 1).
Proof.
  intros Hs t.
  destruct (runNet_teardowns w minerCount blockCount output t1 miners Hs)
    as [Hm Ht].
  fold t in Ht. repeat split; try assumption.
  rewrite Ht. apply NoDup_count_occ'. subst miners. apply handles_NoDup.
Qed.

Lemma teardown_once_per_handle_witness :
  let t := fst (runNet stormy 3 50 "out.html" []) in
  snd (runNet stormy 3 50 "out.html" [])
  = (""%string, Some "unable to connect nodes: refused"%string) /\
  teardowns t = [mkHarness 0; mkHarness 1; mkHarness 2] /\
  count_occ Harness_eq_dec (teardowns t) (mkHarness 1) = 1.
Proof.
  split; [reflexivity|].
  destruct (teardown_once_per_handle stormy 3 50 "out.html"
              (fst (spawnMiners stormy 3 0 [] []))
              [mkHarness 0; mkHarness 1; mkHarness 2] eq_refl)
    as (_ & Ht & Hc).
  split; [exact Ht|]. apply Hc. simpl. tauto.
Defined.

(** ** Provisioning *)

(** When the spawn loop fails, [runNet] returns its error at once: the
    [defer] statement has not been reached and nothing is torn down. *)
Lemma runNet_spawn_failure w minerCount blockCount output t e :
  spawnMiners w (Z.to_nat minerCount) 0 [] [] = (t, Err e) ->
  runNet w minerCount blockCount output [] = (t, (""%string, Some e)) /\
  teardowns t = [].
Proof.
  intros Hs.
  destruct (runNetM_trace w minerCount blockCount output []) as (S & FS & H).
  rewrite Hs in H. destruct H as [E1 E]. unfold runNet. rewrite E.
  split; [reflexivity|]. subst t. simpl. kinds_nil.
Qed.

(** C1.  The code at a provisioning failure.  With four miners asked for
    and the third [rpctest.New] failing, handles 0 and 1 have been created
    and set up, the error cites index 2, handles 2 and 3 are not created,
    and [TearDown] is called on no handle at all.  The same holds when it
    is [SetUp] that fails: the harness just created stays as well. *)
Theorem provision_failure_leaves_handles :
  runNet thirdNewFails 4 50 "" []
  = ([EvNew 0 None; EvSetUp (mkHarness 0) None;
      EvNew 1 None; EvSetUp (mkHarness 1) None;
      EvNew 2 (Some "boom"%string)],
     (""%string, Some "unable to create mining node 2: boom"%string)) /\
  created (fst (runNet thirdNewFails 4 50 "" []))
  = [mkHarness 0; mkHarness 1] /\
  teardowns (fst (runNet thirdNewFails 4 50 "" [])) = [] /\
  runNet secondSetUpFails 4 50 "" []
  = ([EvNew 0 None; EvSetUp (mkHarness 0) None;
      EvNew 1 None; EvSetUp (mkHarness 1) (Some "no free port"%string)],
     (""%string,
      Some "unable to complete mining node 1 setup: no free port"%string)) /\
  teardowns (fst (runNet secondSetUpFails 4 50 "" [])) = [].
Proof. repeat split; reflexivity. Qed.

(** ** Fan-in *)

Section FanIn.

Variable w : World.

Lemma waitForBlocks_spec futures : forall k t,
  exists evs,
    fst (waitForBlocks w futures k t) = t ++ evs /\
    match snd (waitForBlocks w futures k t) with
    | Ok _ => received evs = futures /\ Forall succeeded evs
    | Err msg =>
        exists i f e evs0,
          nth_error futures i = Some f /\
          evs = evs0 ++ [EvReceive f (Err e)] /\
          Forall succeeded evs0 /\
          received evs = firstn (S i) futures /\
          msg = ("failed to wait for blocks to generate on node "
                 ++ itoa (k + i) ++ ": " ++ e)%string
    end.
Proof.
  induction futures as [|f fs IH]; intros k t.
  - exists []. simpl. rewrite app_nil_r. now repeat split.
  - cbn [waitForBlocks]. unfold bind, orFail, Receive, io.
    destruct (w_Receive w t f) as [blocks|e] eqn:Er.
    + destruct (IH (S k) (t ++ [EvReceive f (Ok blocks)]))
        as (evs & E & H).
      exists (EvReceive f (Ok blocks) :: evs).
      rewrite E, <- app_assoc. split; [reflexivity|].
      destruct (snd (waitForBlocks w fs (S k) _)) as [[]|msg].
      * destruct H as [Hr Hf]. simpl. rewrite Hr. split; [reflexivity|].
        constructor; [now exists f, blocks | exact Hf].
      * destruct H as (i & f' & e & evs0 & Hn & He & Hf & Hr & Hm).
        exists (S i), f', e, (EvReceive f (Ok blocks) :: evs0).
        repeat split.
        -- exact Hn.
        -- now rewrite He.
        -- constructor; [now exists f, blocks | exact Hf].
        -- simpl. simpl in Hr. now rewrite Hr.
        -- now rewrite Nat.add_succ_r.
    + exists [EvReceive f (Err e)]. simpl. split; [reflexivity|].
      exists 0, f, e, []. rewrite Nat.add_0_r. now repeat split.
Qed.

(** The first failing future decides the result, when the futures in front
    of it deliver. *)
Lemma waitForBlocks_first_failure e f post : forall pre k t,
  (forall t' f', In f' pre -> exists blocks, w_Receive w t' f' = Ok blocks) ->
  (forall t', w_Receive w t' f = Err e) ->
  snd (waitForBlocks w (pre ++ f :: post) k t)
  = Err ("failed to wait for blocks to generate on node "
         ++ itoa (k + List.length pre) ++ ": " ++ e)%string.
Proof.
  induction pre as [|p pre IH]; intros k t Hpre Hf.
  - cbn [app waitForBlocks]. unfold bind, orFail, Receive, io.
    rewrite Hf. simpl. now rewrite Nat.add_0_r.
  - cbn [app waitForBlocks]. unfold bind, orFail, Receive, io.
    destruct (Hpre t p (or_introl eq_refl)) as [blocks ->].
    rewrite IH; [|intros t' f' Hin; apply Hpre; now right | exact Hf].
    simpl. now rewrite Nat.add_succ_r.
Qed.

Lemma runStages_unfold miners blockCount output t :
  runStages w miners blockCount output t =
  let t1 := t ++ [EvConnectNodes miners (w_ConnectNodes w t miners)] in
  match w_ConnectNodes w t miners with
  | Some e => (t1, Err ("unable to connect nodes: " ++ e)%string)
  | None =>
      let t2 := t1 ++ map (fun h => EvGenerateAsync h (uint32 blockCount))
                        miners in
      match waitForBlocks w (map (futureOf blockCount) miners) 0 t2 with
      | (t3, Err e) => (t3, Err e)
      | (t3, Ok _) =>
          match renderDag w miners t3 with
          | (t4, Err e) => (t4, Err e)
          | (t4, Ok h) =>
              match openOutput w output t4 with
              | (t5, Err e) => (t5, Err e)
              | (t5, Ok fh) =>
                  match save w h fh t5 with
                  | (t6, Err e) =>
                      (t6, Err ("failed to save HTML file: " ++ e)%string)
                  | (t6, Ok _) => (t6, Ok (Name fh))
                  end
              end
          end
      end
  end.
Proof.
  unfold runStages, bind at 1, orFail at 1, rpctest_ConnectNodes, io.
  destruct (w_ConnectNodes w t miners) as [e|]; simpl; [reflexivity|].
  unfold bind at 1. rewrite generateBlocks_spec. simpl.
  unfold bind at 1.
  destruct (waitForBlocks w _ 0 _) as [t3 [[]|e]]; [|reflexivity].
  unfold bind at 1.
  destruct (renderDag w miners t3) as [t4 [h|e]]; [|reflexivity].
  unfold bind at 1.
  destruct (openOutput w output t4) as [t5 [fh|e]]; [|reflexivity].
  unfold bind, orFail, ret.
  now destruct (save w h fh t5) as [t6 [[]|e]].
Qed.

End FanIn.

(** C2, as the code has it.  The fan-in loop receives the futures in index
    order and stops at the first failure.  When no [Receive] fails, all K
    futures are received.  When one fails, every future in front of it has
    delivered, the futures behind it are never received, and the error cites
    the index of that first failure.  The loop hands back no per-future
    results in either case. *)
Theorem fanin_stops_at_first_failure w futures t :
  exists evs,
    fst (waitForBlocks w futures 0 t) = t ++ evs /\
    match snd (waitForBlocks w futures 0 t) with
    | Ok _ => received evs = futures /\ Forall succeeded evs
    | Err msg =>
        exists i f e evs0,
          nth_error futures i = Some f /\
          evs = evs0 ++ [EvReceive f (Err e)] /\
          Forall succeeded evs0 /\
          received evs = firstn (S i) futures /\
          msg = ("failed to wait for blocks to generate on node "
                 ++ itoa i ++ ": " ++ e)%string
    end.
Proof. exact (waitForBlocks_spec w futures 0 t). Qed.

(** C2 as stated fails: with two nodes and the [Receive] of node 0 failing,
    both futures are dispatched and the future of node 1 is never
    received. *)
Lemma fanin_waits_on_all_counterexample :
  let t := fst (runNet (receiveFailsOn 0) 2 50 "" []) in
  dispatched t = [futureOf 50 (mkHarness 0); futureOf 50 (mkHarness 1)] /\
  received t = [futureOf 50 (mkHarness 0)] /\
  ~ In (futureOf 50 (mkHarness 1)) (received t) /\
  snd (runNet (receiveFailsOn 0) 2 50 "" [])
  = (""%string,
     Some "failed to wait for blocks to generate on node 0: timeout"%string).
Proof.
  repeat split; try reflexivity.
  vm_compute. intros [H|[]]. discriminate H.
Qed.

(** ** Fan-out before fan-in *)

Section Splitting.

Variables (X : Type) (P : X -> Prop).

(** An element outside [P] of a list that starts with elements of [P] lies
    behind them. *)
Lemma split_behind (x : X) (t2 B : list X) : forall A t1,
  Forall P A -> ~ P x -> A ++ B = t1 ++ x :: t2 ->
  exists t1', t1 = A ++ t1' /\ B = t1' ++ x :: t2.
Proof.
  induction A as [|a A IH]; intros t1 HA Hx E.
  - now exists t1.
  - inversion HA as [|? ? Ha HA']; subst.
    destruct t1 as [|y t1]; simpl in E; injection E as -> E.
    + contradiction.
    + destruct (IH t1 HA' Hx E) as (t1' & -> & ->). now exists t1'.
Qed.

(** An element outside [P] of a list that ends with elements of [P] lies in
    front of them. *)
Lemma split_in_front (x : X) (t2 B : list X) : forall t1 A,
  Forall P B -> ~ P x -> A ++ B = t1 ++ x :: t2 ->
  exists t2', t2 = t2' ++ B /\ A = t1 ++ x :: t2'.
Proof.
  induction t1 as [|y t1 IH]; intros A HB Hx E.
  - destruct A as [|a A]; simpl in E.
    + subst B. inversion HB; contradiction.
    + injection E as -> E. now exists A.
  - destruct A as [|a A]; simpl in E.
    + subst B. exfalso. apply Hx.
      rewrite Forall_forall in HB. apply HB. right.
      apply in_or_app. right. now left.
    + injection E as -> E. destruct (IH A HB Hx E) as (t2' & -> & ->).
      now exists t2'.
Qed.

End Splitting.

Section Shape.

Variable w : World.

(** The stages append: the connection and the dispatches, then the
    receives, then rendering and file calls.  Whenever a future is
    received, every miner has been dispatched to. *)
Lemma runStages_shape miners blockCount output t :
  exists C W R,
    fst (runStages w miners blockCount output t) = t ++ C ++ W ++ R /\
    Forall (among [KConnect; KGenerate]) C /\
    Forall (among [KReceive]) W /\
    Forall (among [KRender; KOpen; KSave]) R /\
    (W <> [] -> dispatched C = map (futureOf blockCount) miners).
Proof.
  rewrite runStages_unfold. cbv zeta.
  set (c := EvConnectNodes miners (w_ConnectNodes w t miners)).
  set (G := map (fun h => EvGenerateAsync h (uint32 blockCount)) miners).
  assert (Fc : Forall (among [KConnect; KGenerate]) ([c] ++ G)).
  { apply Forall_app. split.
    - constructor; [unfold among; simpl; tauto | constructor].
    - apply Forall_forall. intros e He. apply in_map_iff in He.
      destruct He as (h & <- & _). unfold among; simpl; tauto. }
  assert (Dc : dispatched ([c] ++ G) = map (futureOf blockCount) miners).
  { unfold dispatched, G. simpl. clear.
    induction miners as [|m ms IH]; simpl; [reflexivity|]. now rewrite IH. }
  destruct (w_ConnectNodes w t miners) as [e|].
  { exists [c], [], []. simpl. repeat split.
    - constructor; [unfold among; simpl; tauto | constructor].
    - constructor.
    - constructor.
    - intros H; now contradiction H. }
  destruct (waitForBlocks_emits w (map (futureOf blockCount) miners) 0
              ((t ++ [c]) ++ G)) as (W & EW & FW).
  assert (Hstop : forall R, Forall (among [KRender; KOpen; KSave]) R ->
            exists C W' R',
              (((t ++ [c]) ++ G) ++ W) ++ R = t ++ C ++ W' ++ R' /\
              Forall (among [KConnect; KGenerate]) C /\
              Forall (among [KReceive]) W' /\
              Forall (among [KRender; KOpen; KSave]) R' /\
              (W' <> [] -> dispatched C = map (futureOf blockCount) miners)).
  { intros R FR. exists ([c] ++ G), W, R. rewrite <- !app_assoc.
    now repeat split. }
  destruct (waitForBlocks w _ 0 _) as [t3 [[]|e]]; simpl in EW; subst t3.
  2:{ simpl. rewrite <- (app_nil_r (_ ++ W)). apply Hstop. constructor. }
  destruct (renderDag_emits w miners (((t ++ [c]) ++ G) ++ W))
    as (R1 & E1 & F1).
  apply (Forall_among_weaken _ [KRender; KOpen; KSave]) in F1; [|incl_kinds].
  destruct (renderDag w miners _) as [t4 [h|e]]; simpl in E1; subst t4.
  2:{ simpl. now apply Hstop. }
  destruct (openOutput_emits w output ((((t ++ [c]) ++ G) ++ W) ++ R1))
    as (R2 & E2 & F2).
  apply (Forall_among_weaken _ [KRender; KOpen; KSave]) in F2; [|incl_kinds].
  destruct (openOutput w output _) as [t5 [fh|e]]; simpl in E2; subst t5.
  2:{ simpl. rewrite <- (app_assoc _ R1 R2). apply Hstop.
      apply Forall_app; now split. }
  destruct (save_emits w h fh (((((t ++ [c]) ++ G) ++ W) ++ R1) ++ R2))
    as (R3 & E3 & F3).
  apply (Forall_among_weaken _ [KRender; KOpen; KSave]) in F3; [|incl_kinds].
  assert (E : fst (match save w h fh
                             (((((t ++ [c]) ++ G) ++ W) ++ R1) ++ R2) with
                   | (t6, Ok _) => (t6, Ok (Name fh))
                   | (t6, Err e) =>
                       (t6, Err ("failed to save HTML file: " ++ e)%string)
                   end)
              = (((t ++ [c]) ++ G) ++ W) ++ (R1 ++ R2 ++ R3)).
  { destruct (save w h fh _) as [t6 [[]|e]]; simpl in E3 |- *; subst t6;
      now rewrite <- !app_assoc. }
  rewrite E. apply Hstop. repeat (apply Forall_app; split); assumption.
Qed.

(** In the history of a run every [GenerateAsync] lies in front of every
    [Receive], and a [Receive] has all the dispatches in front of it. *)
Lemma runNet_dispatch_then_receive minerCount blockCount output t1 f r t2 :
  fst (runNet w minerCount blockCount output []) = t1 ++ EvReceive f r :: t2 ->
  dispatched t1 = map (futureOf blockCount) (handles (Z.to_nat minerCount)) /\
  dispatched t2 = [].
Proof.
  rewrite fst_runNet.
  destruct (runNetM_trace w minerCount blockCount output []) as (S & FS & H).
  assert (Hr : forall ks, ~ In KReceive ks -> ~ among ks (EvReceive f r)).
  { intros ks Hn Ha. exact (Hn Ha). }
  destruct (spawnMiners w _ 0 [] []) as [s1 [miners|e]].
  - destruct H as (Hm & -> & B & T & _ & FT & _ & EB & ->).
    destruct (runStages_shape miners blockCount output ([] ++ S))
      as (C & W & R & E & FC & FW & FR & HD).
    rewrite E in EB. apply app_inv_head in EB. subst B. simpl.
    rewrite <- !app_assoc. rewrite (app_assoc S C). intros Et.
    apply split_behind with (P := among [KNew; KSetUp; KConnect; KGenerate])
      in Et.
    2:{ apply Forall_app. split.
        - revert FS. apply Forall_among_weaken. incl_kinds.
        - revert FC. apply Forall_among_weaken. incl_kinds. }
    2:{ apply Hr. simpl. intuition discriminate. }
    destruct Et as (t1' & -> & Et).
    apply split_in_front with (P := among [KRender; KOpen; KSave; KTearDown])
      in Et.
    2:{ apply Forall_app. split.
        - revert FR. apply Forall_among_weaken. incl_kinds.
        - revert FT. apply Forall_among_weaken. incl_kinds. }
    2:{ apply Hr. simpl. intuition discriminate. }
    destruct Et as (t2' & -> & EW). subst W.
    apply Forall_app in FW. destruct FW as [F1 F2].
    inversion F2 as [|? ? _ F2']; subst.
    rewrite !dispatched_app.
    assert (dispatched S = []) as -> by kinds_nil.
    assert (dispatched t1' = []) as -> by kinds_nil.
    assert (dispatched t2' = []) as -> by kinds_nil.
    assert (dispatched R = []) as -> by kinds_nil.
    assert (dispatched T = []) as -> by kinds_nil.
    rewrite HD, app_nil_r; [now split|].
    intros En. symmetry in En. now apply app_cons_not_nil in En.
  - destruct H as [-> ->]. simpl. rewrite <- (app_nil_r S). intros Et.
    apply split_behind with (P := among [KNew; KSetUp]) in Et;
      [|exact FS|apply Hr; simpl; intuition discriminate].
    destruct Et as (t1' & _ & Et). now apply app_cons_not_nil in Et.
Qed.

End Shape.

(** C4.  Dispatch hands back one future per handle, in the order of the
    handles, and never fails; and in every run a [Receive] has the
    [GenerateAsync] of all N handles in front of it and none behind it. *)
Theorem fanout_completes_before_fanin w minerCount blockCount output :
  (forall miners t, exists futures,
      generateBlocks miners blockCount [] t
      = (t ++ map (fun h => EvGenerateAsync h (uint32 blockCount)) miners,
         Ok futures) /\
      List.length futures = List.length miners /\
      forall i h, nth_error miners i = Some h ->
                  nth_error futures i = Some (mkFuture h (uint32 blockCount)))
  /\
  (forall t1 f r t2,
      fst (runNet w minerCount blockCount output [])
      = t1 ++ EvReceive f r :: t2 ->
      dispatched t1
      = map (futureOf blockCount) (handles (Z.to_nat minerCount)) /\
      List.length (dispatched t1) = Z.to_nat minerCount /\
      dispatched t2 = []).
Proof.
  split.
  - intros miners t. exists (map (futureOf blockCount) miners).
    rewrite generateBlocks_spec. repeat split.
    + apply length_map.
    + intros i h Hn. rewrite nth_error_map, Hn. reflexivity.
  - intros t1 f r t2 E.
    destruct (runNet_dispatch_then_receive w _ _ _ _ _ _ _ E) as [H1 H2].
    repeat split; try assumption.
    now rewrite H1, length_map, handles_length.
Qed.

Lemma fanout_completes_before_fanin_witness :
  let t := fst (runNet calm 2 50 "" []) in
  dispatched (firstn 7 t)
  = [futureOf 50 (mkHarness 0); futureOf 50 (mkHarness 1)] /\
  List.length (dispatched (firstn 7 t)) = 2 /\
  dispatched (skipn 8 t) = [].
Proof.
  intros t.
  exact (proj2 (fanout_completes_before_fanin calm 2 50 "")
           (firstn 7 t) (futureOf 50 (mkHarness 0)) (Ok []) (skipn 8 t)
           eq_refl).
Defined.

(** ** One failing generation *)

Lemma handles_split n i :
  i < n ->
  handles n
  = handles i ++ mkHarness i :: map mkHarness (seq (S i) (n - S i)).
Proof.
  intros Hi. unfold handles.
  replace n with (i + S (n - S i)) at 1 by lia.
  now rewrite seq_app, map_app.
Qed.

(** C5.  When all N nodes are provisioned and connected and [Receive] fails
    on the future of node [i] and of no other node, [runNet] returns the
    error citing [i], and by then [TearDown] has been called on all N
    handles. *)
Theorem single_generation_failure_reported
  w minerCount blockCount output t1 miners i e :
  spawnMiners w (Z.to_nat minerCount) 0 [] [] = (t1, Ok miners) ->
  w_ConnectNodes w t1 miners = None ->
  i < Z.to_nat minerCount ->
  (forall t, w_Receive w t (futureOf blockCount (mkHarness i)) = Err e) ->
  (forall t j, j < Z.to_nat minerCount -> j <> i ->
     exists blocks,
       w_Receive w t (futureOf blockCount (mkHarness j)) = Ok blocks) ->
  snd (runNet w minerCount blockCount output [])
  = (""%string,
     Some ("failed to wait for blocks to generate on node "
           ++ itoa i ++ ": " ++ e)%string) /\
  teardowns (fst (runNet w minerCount blockCount output []))
  = handles (Z.to_nat minerCount) /\
  List.length (handles (Z.to_nat minerCount)) = Z.to_nat minerCount.
Proof.
  intros Hs Hc Hi Hfail Hok.
  destruct (runNet_teardowns w minerCount blockCount output t1 miners Hs)
    as [Hm Ht].
  split; [|split; [now rewrite Ht | apply handles_length]].
  rewrite snd_runNet.
  destruct (runNetM_trace w minerCount blockCount output []) as (S & _ & H).
  rewrite Hs in H. destruct H as (_ & _ & B & T & _ & _ & _ & _ & ->).
  cbn [snd]. rewrite runStages_unfold, Hc. cbv zeta.
  set (t2 := _ ++ map _ miners).
  assert (Hw : snd (waitForBlocks w (map (futureOf blockCount) miners) 0 t2)
               = Err ("failed to wait for blocks to generate on node "
                      ++ itoa i ++ ": " ++ e)%string).
  { rewrite Hm, (handles_split _ i Hi), map_app. cbn [map].
    rewrite waitForBlocks_first_failure with (e := e).
    - now rewrite length_map, handles_length.
    - intros t' f' Hin. apply in_map_iff in Hin.
      destruct Hin as (h & <- & Hin). apply in_map_iff in Hin.
      destruct Hin as (j & <- & Hin). apply in_seq in Hin.
      apply Hok; lia.
    - exact Hfail. }
  destruct (waitForBlocks w _ 0 t2) as [t3 r3]. simpl in Hw. now subst r3.
Qed.

Lemma single_generation_failure_reported_witness :
  snd (runNet (receiveFailsOn 1) 3 50 "" [])
  = (""%string,
     Some "failed to wait for blocks to generate on node 1: timeout"%string)
  /\
  teardowns (fst (runNet (receiveFailsOn 1) 3 50 "" []))
  = [mkHarness 0; mkHarness 1; mkHarness 2] /\
  List.length [mkHarness 0; mkHarness 1; mkHarness 2] = 3.
Proof.
  apply (single_generation_failure_reported (receiveFailsOn 1) 3 50 ""
           (fst (spawnMiners (receiveFailsOn 1) 3 0 [] []))
           [mkHarness 0; mkHarness 1; mkHarness 2] 1 "timeout").
  - reflexivity.
  - reflexivity.
  - simpl. lia.
  - intros t. reflexivity.
  - intros t j Hj Hne. exists [].
    destruct j as [|[|j]]; [reflexivity | now contradiction Hne | reflexivity].
Defined.

(** ** Output destination *)

Section Output.

Variable w : World.

Lemma openOutput_empty t :
  openOutput w "" t
  = (t ++ [EvTempFile "" "dag_*.html" (w_TempFile w t "" "dag_*.html")],
     tempFileResult (w_TempFile w t "" "dag_*.html")).
Proof.
  unfold openOutput, orFail, ioutil_TempFile, io, pattern. simpl.
  now destruct (w_TempFile w t "" "dag_*.html").
Qed.

Lemma openOutput_directory output t info :
  output <> ""%string ->
  w_Stat w t output = Ok info -> IsDir info = true ->
  let t1 := t ++ [EvStat output (Ok info)] in
  openOutput w output t
  = (t1 ++ [EvTempFile output "dag_*.html"
              (w_TempFile w t1 output "dag_*.html")],
     tempFileResult (w_TempFile w t1 output "dag_*.html")).
Proof.
  intros Hne Hst Hdir t1. unfold openOutput, orFail.
  destruct output as [|c s]; [now contradiction Hne|]. cbn [String.length Nat.eqb].
  unfold os_Stat. rewrite Hst, Hdir.
  unfold ioutil_TempFile, io, pattern. fold t1.
  now destruct (w_TempFile w t1 _ _).
Qed.

Lemma openOutput_file output t :
  output <> ""%string ->
  (forall info, w_Stat w t output = Ok info -> IsDir info = false) ->
  let t1 := t ++ [EvStat output (w_Stat w t output)] in
  openOutput w output t
  = (t1 ++ [EvOpenFile output openFlags perm0644
              (w_OpenFile w t1 output openFlags perm0644)],
     openFileResult output (w_OpenFile w t1 output openFlags perm0644)).
Proof.
  intros Hne Hst t1. unfold openOutput, orFail.
  destruct output as [|c s]; [now contradiction Hne|]. cbn [String.length Nat.eqb].
  unfold os_Stat. fold t1. fold openFlags.
  destruct (w_Stat w t (String c s)) as [info|e] eqn:Es.
  - rewrite (Hst info eq_refl). unfold os_OpenFile, io.
    now destruct (w_OpenFile w t1 _ _ _).
  - unfold os_OpenFile, io. now destruct (w_OpenFile w t1 _ _ _).
Qed.

(** A file handle comes from exactly one successful open. *)
Lemma openOutput_ok output t t' fh :
  openOutput w output t = (t', Ok fh) ->
  exists O, t' = t ++ O /\ Forall (among [KOpen]) O /\ opened O = [Name fh].
Proof.
  assert (Hk : forall a b, Forall (among [KOpen]) [a; b] <->
                           among [KOpen] a /\ among [KOpen] b).
  { intros a b. split.
    - intros F. inversion F as [|? ? Ha F']. inversion F'. now split.
    - intros [Ha Hb]. constructor; [exact Ha|]. constructor; [exact Hb|].
      constructor. }
  intros H. destruct (string_dec output "") as [->|Hne].
  - rewrite openOutput_empty in H.
    destruct (w_TempFile w t "" "dag_*.html") as [name|e];
      [|discriminate]. injection H as <- <-.
    eexists. split; [reflexivity|]. split; [|reflexivity].
    constructor; [now left | constructor].
  - destruct (w_Stat w t output) as [[[|]]|e] eqn:Es.
    + rewrite (openOutput_directory output t _ Hne Es eq_refl) in H.
      destruct (w_TempFile w _ output "dag_*.html") as [name|e];
        [|discriminate]. injection H as <- <-.
      rewrite <- app_assoc. eexists. split; [reflexivity|].
      split; [|reflexivity]. apply Hk. split; now left.
    + assert (Hf : forall info, w_Stat w t output = Ok info ->
                                IsDir info = false).
      { intros info Ei. rewrite Es in Ei. now injection Ei as <-. }
      rewrite (openOutput_file output t Hne Hf), Es in H.
      destruct (w_OpenFile w _ output openFlags perm0644) as [e'|];
        [discriminate|]. injection H as <- <-.
      rewrite <- app_assoc. eexists. split; [reflexivity|].
      split; [|reflexivity]. apply Hk. split; now left.
    + assert (Hf : forall info, w_Stat w t output = Ok info ->
                                IsDir info = false).
      { intros info Ei. rewrite Es in Ei. discriminate Ei. }
      rewrite (openOutput_file output t Hne Hf), Es in H.
      destruct (w_OpenFile w _ output openFlags perm0644) as [e'|];
        [discriminate|]. injection H as <- <-.
      rewrite <- app_assoc. eexists. split; [reflexivity|].
      split; [|reflexivity]. apply Hk. split; now left.
Qed.

Lemma save_ok data fh t t' :
  save w data fh t = (t', Ok tt) ->
  t' = t ++ [EvWrite fh data None; EvClose fh None].
Proof.
  unfold save, bind, Write, Close, io, ret.
  destruct (w_Write w t fh data) as [e|] eqn:Ew; simpl; [discriminate|].
  destruct (w_Close w _ fh) as [e|] eqn:Ec; simpl; [discriminate|].
  intros [= <-]. now rewrite <- app_assoc.
Qed.

End Output.

(** ** Rendering *)

Lemma renderFailure_kind ev msg :
  renderFailure ev = Some msg -> kind ev = KRender.
Proof. destruct ev; simpl; try discriminate; reflexivity. Qed.

Ltac app_eq :=
  cbn [fst snd app]; repeat rewrite <- app_assoc; cbn [app];
  repeat rewrite app_nil_r; reflexivity.

Section Rendering.

Variable w : World.

Lemma renderDag_unfold miners t :
  renderDag w miners t =
  let r1 := w_RenderDagsDot w t miners in
  let t1 := t ++ [EvRenderDagsDot miners r1] in
  match r1 with
  | Err e =>
      (t1, Err ("failed to render dag in graphviz DOT format: " ++ e)%string)
  | Ok dot =>
      let r2 := w_DotToSvg w t1 dot in
      let t2 := t1 ++ [EvDotToSvg dot r2] in
      match r2 with
      | Err e => (t2, Err ("failed to convert DOT file to SVG: " ++ e)%string)
      | Ok svg =>
          let r3 := w_StripSvgXmlDecl w t2 svg in
          let t3 := t2 ++ [EvStripSvgXmlDecl svg r3] in
          match r3 with
          | Err e =>
              (t3, Err ("failed to strip xml declaration from SVG image: "
                        ++ e)%string)
          | Ok svgEmbed =>
              let r4 := w_RenderSvgHTML w t3 svgEmbed "dag" in
              let t4 := t3 ++ [EvRenderSvgHTML svgEmbed "dag" r4] in
              match r4 with
              | Err e =>
                  (t4, Err ("failed to render SVG image as HTML: "
                            ++ e)%string)
              | Ok h => (t4, Ok h)
              end
          end
      end
  end.
Proof.
  unfold renderDag, bind, orFail, rpctest_RenderDagsDot, soterutil_DotToSvg,
    soterutil_StripSvgXmlDecl, soterutil_RenderSvgHTML, io. cbv zeta.
  destruct (w_RenderDagsDot w t miners) as [dot|e]; [|reflexivity].
  destruct (w_DotToSvg w _ dot) as [svg|e]; [|reflexivity].
  destruct (w_StripSvgXmlDecl w _ svg) as [svgEmbed|e]; [|reflexivity].
  now destruct (w_RenderSvgHTML w _ svgEmbed "dag") as [h|e].
Qed.

(** The calls of a rendering all succeed when it succeeds; when it fails,
    its error is the one of the call that failed. *)
Lemma renderDag_cases miners t t' r :
  renderDag w miners t = (t', r) ->
  exists R, t' = t ++ R /\ Forall (among [KRender]) R /\
    match r with
    | Ok _ => Forall (fun ev => renderFailure ev = None) R
    | Err msg =>
        forall ev m, In ev R -> renderFailure ev = Some m -> m = msg
    end.
Proof.
  assert (Hr : forall ev, kind ev = KRender -> among [KRender] ev).
  { intros ev Hk. unfold among. rewrite Hk. now left. }
  rewrite renderDag_unfold. cbv zeta.
  destruct (w_RenderDagsDot w t miners) as [dot|e1].
  2:{ intros [= <- <-]. eexists. split; [reflexivity|]. split.
      - repeat constructor.
      - intros ev m [<-|[]]. simpl. now intros [= <-]. }
  destruct (w_DotToSvg w _ dot) as [svg|e2].
  2:{ intros [= <- <-]. rewrite <- app_assoc. eexists.
      split; [reflexivity|]. split.
      - repeat (constructor; [now apply Hr|]). constructor.
      - intros ev m [<-|[<-|[]]]; simpl; [discriminate|]. now intros [= <-]. }
  destruct (w_StripSvgXmlDecl w _ svg) as [svgEmbed|e3].
  2:{ intros [= <- <-]. rewrite <- !app_assoc. eexists.
      split; [reflexivity|]. split.
      - repeat (constructor; [now apply Hr|]). constructor.
      - intros ev m [<-|[<-|[<-|[]]]]; simpl; try discriminate.
        now intros [= <-]. }
  destruct (w_RenderSvgHTML w _ svgEmbed "dag") as [h|e4].
  - intros [= <- <-]. rewrite <- !app_assoc. eexists.
    split; [reflexivity|]. split.
    + repeat (constructor; [now apply Hr|]). constructor.
    + repeat (constructor; [reflexivity|]). constructor.
  - intros [= <- <-]. rewrite <- !app_assoc. eexists.
    split; [reflexivity|]. split.
    + repeat (constructor; [now apply Hr|]). constructor.
    + intros ev m [<-|[<-|[<-|[<-|[]]]]]; simpl; try discriminate.
      now intros [= <-].
Qed.

(** How the stages end: what they appended and what they returned. *)
Lemma runStages_outcome miners blockCount output t :
  exists P R Z,
    fst (runStages w miners blockCount output t) = t ++ P ++ R ++ Z /\
    Forall (among [KConnect; KGenerate; KReceive]) P /\
    Forall (among [KRender]) R /\
    Forall (among [KOpen; KSave]) Z /\
    match snd (runStages w miners blockCount output t) with
    | Ok name =>
        dispatched P = map (futureOf blockCount) miners /\
        Forall (fun ev => renderFailure ev = None) R /\
        exists O data,
          Z = O ++ [EvWrite (mkFile name) data None;
                    EvClose (mkFile name) None] /\
          Forall (among [KOpen]) O /\ opened O = [name]
    | Err msg =>
        Forall (fun ev => renderFailure ev = None) R \/
        (Z = [] /\
         forall ev m, In ev R -> renderFailure ev = Some m -> m = msg)
    end.
Proof.
  rewrite runStages_unfold. cbv zeta.
  set (c := EvConnectNodes miners (w_ConnectNodes w t miners)).
  set (G := map (fun h => EvGenerateAsync h (uint32 blockCount)) miners).
  assert (Fc : Forall (among [KConnect; KGenerate; KReceive]) [c]).
  { constructor; [now left | constructor]. }
  assert (FG : Forall (among [KConnect; KGenerate; KReceive]) G).
  { apply Forall_forall. intros e He. apply in_map_iff in He.
    destruct He as (h & <- & _). right. now left. }
  destruct (w_ConnectNodes w t miners) as [e|].
  { exists [c], [], []. split; [app_eq|].
    split; [exact Fc|]. split; [constructor|]. split; [constructor|].
    left. constructor. }
  destruct (waitForBlocks_emits w (map (futureOf blockCount) miners) 0
              ((t ++ [c]) ++ G)) as (W & EW & FW).
  assert (HD : dispatched ([c] ++ G ++ W)
               = map (futureOf blockCount) miners).
  { rewrite !dispatched_app. assert (dispatched W = []) as -> by kinds_nil.
    rewrite app_nil_r. unfold dispatched, G. simpl. clear.
    induction miners as [|m ms IH]; simpl; [reflexivity|]. now rewrite IH. }
  apply (Forall_among_weaken _ [KConnect; KGenerate; KReceive]) in FW;
    [|incl_kinds].
  assert (FP : Forall (among [KConnect; KGenerate; KReceive])
                 ([c] ++ G ++ W)).
  { repeat (apply Forall_app; split); assumption. }
  destruct (waitForBlocks w _ 0 _) as [t3 [[]|e]]; simpl in EW; subst t3.
  2:{ exists ([c] ++ G ++ W), [], []. split; [app_eq|].
      split; [exact FP|]. split; [constructor|]. split; [constructor|].
      left. constructor. }
  destruct (renderDag w miners _) as [t4 r4] eqn:Er.
  destruct (renderDag_cases _ _ _ _ Er) as (R & -> & FR & HR).
  destruct r4 as [h|e].
  2:{ exists ([c] ++ G ++ W), R, []. split; [app_eq|].
      split; [exact FP|]. split; [exact FR|]. split; [constructor|].
      right. now split. }
  destruct (openOutput w output _) as [t5 [fh|e]] eqn:Eo.
  2:{ destruct (openOutput_emits w output ((((t ++ [c]) ++ G) ++ W) ++ R))
        as (O & EO & FO).
      rewrite Eo in EO. simpl in EO. subst t5.
      exists ([c] ++ G ++ W), R, O. split; [app_eq|].
      split; [exact FP|]. split; [exact FR|]. split; [|now left].
      revert FO. apply Forall_among_weaken. incl_kinds. }
  destruct (openOutput_ok _ _ _ _ _ Eo) as (O & -> & FO & HO).
  assert (FO' : Forall (among [KOpen; KSave]) O).
  { revert FO. apply Forall_among_weaken. incl_kinds. }
  destruct (save w h fh _) as [t6 [[]|e]] eqn:Esv.
  - apply save_ok in Esv. subst t6.
    exists ([c] ++ G ++ W), R,
      (O ++ [EvWrite fh h None; EvClose fh None]).
    split; [app_eq|]. split; [exact FP|]. split; [exact FR|]. split.
    + apply Forall_app. split; [exact FO'|].
      constructor; [right; now left|]. constructor; [right; now left|].
      constructor.
    + split; [exact HD|]. split; [exact HR|]. exists O, h.
      destruct fh as [name]. now repeat split.
  - destruct (save_emits w h fh (((((t ++ [c]) ++ G) ++ W) ++ R) ++ O))
      as (V & EV & FV).
    rewrite Esv in EV. simpl in EV. subst t6.
    exists ([c] ++ G ++ W), R, (O ++ V). split; [app_eq|].
    split; [exact FP|]. split; [exact FR|]. split; [|now left].
    apply Forall_app. split; [exact FO'|].
    revert FV. apply Forall_among_weaken. incl_kinds.
Qed.

End Rendering.

(** ** Whole runs *)

Section Runs.

Variable w : World.

Lemma spawnMiners_created n : forall i miners t t' ms,
  spawnMiners w n i miners t = (t', Ok ms) ->
  exists S, t' = t ++ S /\ created S = map mkHarness (seq i n).
Proof.
  induction n as [|n IH]; intros i miners t t' ms; simpl.
  - unfold ret. intros [= <- _]. exists []. now rewrite app_nil_r.
  - unfold bind, orFail, rpctest_New, SetUp, io.
    destruct (w_New w t); [discriminate|].
    destruct (w_SetUp w _ _); simpl; [discriminate|].
    intros H. apply IH in H. destruct H as (S & -> & HS).
    exists (EvNew i None :: EvSetUp (mkHarness i) None :: S).
    split; [app_eq|]. simpl. now rewrite HS.
Qed.

(** The history and the result of a run, stage by stage. *)
Lemma runNet_outcome minerCount blockCount output t :
  exists S P R Z T,
    fst (runNet w minerCount blockCount output t)
    = t ++ S ++ P ++ R ++ Z ++ T /\
    Forall (among [KNew; KSetUp]) S /\
    Forall (among [KConnect; KGenerate; KReceive]) P /\
    Forall (among [KRender]) R /\
    Forall (among [KOpen; KSave]) Z /\
    Forall (among [KTearDown]) T /\
    match snd (runNet w minerCount blockCount output t) with
    | (name, None) =>
        created S = handles (Z.to_nat minerCount) /\
        dispatched P
        = map (futureOf blockCount) (handles (Z.to_nat minerCount)) /\
        teardowns T = handles (Z.to_nat minerCount) /\
        Forall (fun ev => renderFailure ev = None) R /\
        exists O data,
          Z = O ++ [EvWrite (mkFile name) data None;
                    EvClose (mkFile name) None] /\
          Forall (among [KOpen]) O /\ opened O = [name]
    | (name, Some msg) =>
        name = ""%string /\
        (Forall (fun ev => renderFailure ev = None) R \/
         (Z = [] /\
          forall ev m, In ev R -> renderFailure ev = Some m -> m = msg))
    end.
Proof.
  rewrite fst_runNet, snd_runNet.
  destruct (runNetM_trace w minerCount blockCount output t) as (S & FS & H).
  destruct (spawnMiners w _ 0 [] t) as [t1 [miners|e]] eqn:Es.
  - destruct H as (Hm & -> & B & T & _ & FT & HT & EB & ->).
    destruct (runStages_outcome w miners blockCount output (t ++ S))
      as (P & R & Z & E & FP & FR & FZ & Hres).
    rewrite E in EB. apply app_inv_head in EB. subst B.
    exists S, P, R, Z, T. split; [app_eq|].
    repeat (split; [assumption|]). cbn [snd].
    destruct (snd (runStages w miners blockCount output (t ++ S)))
      as [name|msg].
    + destruct Hres as (HD & HR & HZ).
      destruct (spawnMiners_created _ _ _ _ _ _ Es) as (S' & ES & HS).
      apply app_inv_head in ES. subst S'. subst miners.
      now repeat split.
    + now split.
  - destruct H as [-> ->]. exists S, [], [], [], [].
    split; [app_eq|]. split; [exact FS|].
    do 4 (split; [constructor|]). cbn [snd]. split; [reflexivity|].
    left. constructor.
Qed.

End Runs.

Lemma among_excluded ks ks' (evs : Trace) :
  (forall k, In k ks -> ~ In k ks') ->
  Forall (among ks) evs -> Forall (fun e => ~ among ks' e) evs.
Proof.
  intros Hd. apply Forall_impl. intros e He He'. exact (Hd _ He He').
Qed.

Ltac excluded :=
  let k := fresh "k" in let Hk := fresh "Hk" in let Hk' := fresh "Hk'" in
  intros k Hk Hk'; simpl in Hk, Hk';
  repeat (destruct Hk as [Hk|Hk]; [subst k; intuition discriminate|]);
  exact Hk.

(** C6.  The destination of the document: with no path given, a file made
    by [ioutil.TempFile] from the pattern [dag_*.html] in the default
    temporary directory; with the path of an existing directory, such a file
    in that directory; otherwise the path itself, opened read-write, created
    when absent and truncated when present.  On success [runNet] returns the
    name of the one file it opened, which is the file it wrote and closed. *)
Theorem output_destination_policy w :
  (forall t,
     openOutput w "" t
     = (t ++ [EvTempFile "" "dag_*.html" (w_TempFile w t "" "dag_*.html")],
        tempFileResult (w_TempFile w t "" "dag_*.html"))) /\
  (forall output t info,
     output <> ""%string ->
     w_Stat w t output = Ok info -> IsDir info = true ->
     let t1 := t ++ [EvStat output (Ok info)] in
     openOutput w output t
     = (t1 ++ [EvTempFile output "dag_*.html"
                 (w_TempFile w t1 output "dag_*.html")],
        tempFileResult (w_TempFile w t1 output "dag_*.html"))) /\
  (forall output t,
     output <> ""%string ->
     (forall info, w_Stat w t output = Ok info -> IsDir info = false) ->
     let t1 := t ++ [EvStat output (w_Stat w t output)] in
     openOutput w output t
     = (t1 ++ [EvOpenFile output openFlags perm0644
                 (w_OpenFile w t1 output openFlags perm0644)],
        openFileResult output
          (w_OpenFile w t1 output openFlags perm0644))) /\
  (Z.land openFlags O_RDWR = O_RDWR /\
   Z.land openFlags O_CREATE = O_CREATE /\
   Z.land openFlags O_TRUNC = O_TRUNC) /\
  (forall minerCount blockCount output t name,
     runNet w minerCount blockCount output [] = (t, (name, None)) ->
     opened t = [name] /\
     exists before data after,
       t = before ++ [EvWrite (mkFile name) data None;
                      EvClose (mkFile name) None] ++ after).
Proof.
  split; [apply openOutput_empty|].
  split; [apply openOutput_directory|].
  split; [apply openOutput_file|].
  split; [now repeat split|].
  intros minerCount blockCount output t name H.
  destruct (runNet_outcome w minerCount blockCount output [])
    as (S & P & R & Z & T & E & FS & FP & FR & FZ & FT & Hres).
  rewrite H in E, Hres. cbn [fst snd app] in E, Hres. subst t.
  destruct Hres as (_ & _ & _ & _ & O & data & -> & FO & HO).
  split.
  - rewrite !opened_app.
    assert (opened S = []) as -> by kinds_nil.
    assert (opened P = []) as -> by kinds_nil.
    assert (opened R = []) as -> by kinds_nil.
    assert (opened T = []) as -> by kinds_nil.
    rewrite HO. reflexivity.
  - exists (S ++ P ++ R ++ O), data, T. app_eq.
Qed.

Lemma output_destination_policy_witness :
  openOutput calm "/srv/dags" []
  = ([EvStat "/srv/dags" (Ok (mkFileInfo true));
      EvTempFile "/srv/dags" "dag_*.html" (Ok "/srv/dags/dag_1.html"%string)],
     Ok (mkFile "/srv/dags/dag_1.html")) /\
  openOutput calm "out.html" []
  = ([EvStat "out.html" (Err "no such file or directory"%string);
      EvOpenFile "out.html" 578 420 None],
     Ok (mkFile "out.html")) /\
  opened (fst (runNet calm 1 50 "out.html" [])) = ["out.html"%string].
Proof.
  destruct (output_destination_policy calm) as (_ & Hd & Hf & _ & Hr).
  split; [|split].
  - apply (Hd "/srv/dags"%string [] (mkFileInfo true));
      [discriminate | reflexivity | reflexivity].
  - apply (Hf "out.html"%string []); [discriminate|].
    intros info. discriminate.
  - apply (Hr 1%Z 50%Z "out.html"%string
             (fst (runNet calm 1 50 "out.html" []))). reflexivity.
Defined.

(** C7.  Rendering runs its four calls in the order DOT, SVG, stripping of
    the XML declaration, HTML document titled [dag], each on the result of
    the one before; the first call that fails ends it with that call's
    error under the stage's context.  In a run where a rendering call
    failed, [runNet] returns that error with an empty file name, and no file
    is opened or written. *)
Theorem rendering_pipeline w :
  (forall miners t,
     renderDag w miners t =
     let r1 := w_RenderDagsDot w t miners in
     let t1 := t ++ [EvRenderDagsDot miners r1] in
     match r1 with
     | Err e =>
         (t1, Err ("failed to render dag in graphviz DOT format: "
                   ++ e)%string)
     | Ok dot =>
         let r2 := w_DotToSvg w t1 dot in
         let t2 := t1 ++ [EvDotToSvg dot r2] in
         match r2 with
         | Err e =>
             (t2, Err ("failed to convert DOT file to SVG: " ++ e)%string)
         | Ok svg =>
             let r3 := w_StripSvgXmlDecl w t2 svg in
             let t3 := t2 ++ [EvStripSvgXmlDecl svg r3] in
             match r3 with
             | Err e =>
                 (t3, Err ("failed to strip xml declaration from SVG image: "
                           ++ e)%string)
             | Ok svgEmbed =>
                 let r4 := w_RenderSvgHTML w t3 svgEmbed "dag" in
                 let t4 := t3 ++ [EvRenderSvgHTML svgEmbed "dag" r4] in
                 match r4 with
                 | Err e =>
                     (t4, Err ("failed to render SVG image as HTML: "
                               ++ e)%string)
                 | Ok h => (t4, Ok h)
                 end
             end
         end
     end) /\
  (forall minerCount blockCount output ev msg,
     In ev (fst (runNet w minerCount blockCount output [])) ->
     renderFailure ev = Some msg ->
     snd (runNet w minerCount blockCount output [])
     = (""%string, Some msg) /\
     Forall (fun e => ~ among [KOpen; KSave] e)
       (fst (runNet w minerCount blockCount output []))).
Proof.
  split; [apply renderDag_unfold|].
  intros minerCount blockCount output ev msg Hin Hev.
  destruct (runNet_outcome w minerCount blockCount output [])
    as (S & P & R & Z & T & E & FS & FP & FR & FZ & FT & Hres).
  rewrite E in Hin |- *. cbn [app] in Hin |- *.
  assert (Hk := renderFailure_kind _ _ Hev).
  assert (Hno : forall ks evs, ~ In KRender ks ->
                  Forall (among ks) evs -> ~ In ev evs).
  { intros ks evs Hn F Hi. rewrite Forall_forall in F.
    specialize (F ev Hi). unfold among in F. rewrite Hk in F. exact (Hn F). }
  assert (HinR : In ev R).
  { repeat (apply in_app_or in Hin; destruct Hin as [Hin|Hin]);
      try exact Hin; exfalso.
    - revert Hin. eapply Hno; [|exact FS]. simpl. intuition discriminate.
    - revert Hin. eapply Hno; [|exact FP]. simpl. intuition discriminate.
    - revert Hin. eapply Hno; [|exact FZ]. simpl. intuition discriminate.
    - revert Hin. eapply Hno; [|exact FT]. simpl. intuition discriminate. }
  assert (Hsome : ~ Forall (fun ev => renderFailure ev = None) R).
  { intros F. rewrite Forall_forall in F. specialize (F ev HinR).
    rewrite Hev in F. discriminate F. }
  destruct (snd (runNet w minerCount blockCount output []))
    as [name [m|]].
  2:{ destruct Hres as (_ & _ & _ & F & _). now contradiction Hsome. }
  destruct Hres as [-> [F|[-> Hm]]]; [now contradiction Hsome|].
  rewrite (Hm ev msg HinR Hev). split; [reflexivity|].
  repeat (apply Forall_app; split).
  - revert FS. apply among_excluded. excluded.
  - revert FP. apply among_excluded. excluded.
  - revert FR. apply among_excluded. excluded.
  - constructor.
  - revert FT. apply among_excluded. excluded.
Qed.

Lemma rendering_pipeline_witness :
  snd (runNet svgBroken 2 50 "out.html" [])
  = (""%string,
     Some "failed to convert DOT file to SVG: dot: not found"%string) /\
  Forall (fun e => ~ among [KOpen; KSave] e)
    (fst (runNet svgBroken 2 50 "out.html" [])).
Proof.
  apply (proj2 (rendering_pipeline svgBroken) 2%Z 50%Z "out.html"%string
           (EvDotToSvg [] (Err "dot: not found"%string))).
  - vm_compute. repeat first [left; reflexivity | right].
  - reflexivity.
Defined.

(** ** The executable *)

Ltac rewrite_nil :=
  match goal with
  | H : _ = [] |- _ => rewrite H
  | H : created _ = _ |- _ => rewrite H
  | H : dispatched _ = _ |- _ => rewrite H
  | H : opened _ = _ |- _ => rewrite H
  | |- _ => rewrite app_nil_r
  end.

(** C8.  [main] runs [runNet] with 4 miners and 50 blocks.  When the run
    succeeds it prints the path [runNet] returned and ends with exit code 0,
    and then four handles were created and 50 blocks were asked of each.
    When the run fails it prints the error of the run, exits with code 1,
    and prints nothing after it. *)
Theorem main_behaviour w output :
  (match runNet w 4 50 output [EvStdout ("Generating dag" ++ newline)] with
   | (t1, (htmlFile, None)) =>
       main w output []
       = (t1 ++ [EvStdout ("Saved dag to " ++ htmlFile ++ newline)], 0%Z)
   | (t1, (_, Some err)) =>
       main w output []
       = (t1 ++ [EvStdout (err ++ newline); EvExit 1], 1%Z)
   end) /\
  (forall t, main w output [] = (t, 0%Z) ->
     created t = handles 4 /\
     dispatched t = map (fun h => mkFuture h 50) (handles 4) /\
     exists t1 htmlFile,
       t = t1 ++ [EvStdout ("Saved dag to " ++ htmlFile ++ newline)] /\
       opened t = [htmlFile]) /\
  (forall t code, main w output [] = (t, code) -> code <> 0%Z ->
     code = 1%Z /\
     exists t1 err,
       snd (runNet w 4 50 output [EvStdout ("Generating dag" ++ newline)])
       = (""%string, Some err) /\
       t = t1 ++ [EvStdout (err ++ newline); EvExit 1]).
Proof.
  assert (Hmain :
    match runNet w 4 50 output [EvStdout ("Generating dag" ++ newline)] with
    | (t1, (htmlFile, None)) =>
        main w output []
        = (t1 ++ [EvStdout ("Saved dag to " ++ htmlFile ++ newline)], 0%Z)
    | (t1, (_, Some err)) =>
        main w output []
        = (t1 ++ [EvStdout (err ++ newline); EvExit 1], 1%Z)
    end).
  { unfold main. cbn [app Println String.concat].
    destruct (runNet w 4 50 output _) as [t1 [htmlFile [err|]]];
      reflexivity. }
  split; [exact Hmain|].
  destruct (runNet_outcome w 4 50 output
              [EvStdout ("Generating dag" ++ newline)])
    as (S & P & R & Z & T & E & FS & FP & FR & FZ & FT & Hres).
  destruct (runNet w 4 50 output _) as [t1 [htmlFile [err|]]];
    cbn [fst snd] in E, Hres; rewrite Hmain; split.
  - intros t [= _].
  - intros t code [= <- <-] _. split; [reflexivity|].
    destruct Hres as [-> _]. now exists t1, err.
  - intros t [= <-].
    destruct Hres as (HS & HP & _ & _ & O & data & -> & FO & HO).
    subst t1.
    assert (created P = []) by kinds_nil.
    assert (created R = []) by kinds_nil.
    assert (created O = []) by kinds_nil.
    assert (created T = []) by kinds_nil.
    assert (dispatched S = []) by kinds_nil.
    assert (dispatched R = []) by kinds_nil.
    assert (dispatched O = []) by kinds_nil.
    assert (dispatched T = []) by kinds_nil.
    assert (opened S = []) by kinds_nil.
    assert (opened P = []) by kinds_nil.
    assert (opened R = []) by kinds_nil.
    assert (opened T = []) by kinds_nil.
    split; [|split].
    + rewrite !created_app. simpl. now repeat rewrite_nil.
    + rewrite !dispatched_app. simpl. now repeat rewrite_nil.
    + eexists. exists htmlFile. split; [reflexivity|].
      rewrite !opened_app. simpl. now repeat rewrite_nil.
  - intros t code [= <- <-] Hc. now contradiction Hc.
Qed.

Lemma main_behaviour_witness :
  (created (fst (main calm "/srv/dags" [])) = handles 4 /\
   dispatched (fst (main calm "/srv/dags" []))
   = map (fun h => mkFuture h 50) (handles 4)) /\
  snd (main stormy "" []) = 1%Z.
Proof.
  destruct (main_behaviour calm "/srv/dags") as (_ & Hok & _).
  destruct (Hok (fst (main calm "/srv/dags" [])) eq_refl)
    as (Hc & Hd & _).
  split; [split; [exact Hc | exact Hd]|].
  destruct (main_behaviour stormy "") as (_ & _ & Hfail).
  apply (Hfail (fst (main stormy "" [])) (snd (main stormy "" [])) eq_refl).
  discriminate.
Defined.

(** ** The verack message *)

(** C9.  Decoding and encoding a verack never fail, whatever the reader,
    the writer, the protocol version and the encoding: the error is nil,
    the reader has delivered no byte, the writer has received no byte, and
    the receiver is as it was. *)
Theorem verack_codec_is_silent (MessageEncoding : Type)
  (msg : wire.MsgVerAck) (r : wire.Reader) (wr : wire.Writer) (pver : Z)
  (enc : MessageEncoding) :
  wire.SotoDecode MessageEncoding msg r pver enc = (msg, r, None) /\
  wire.SotoEncode MessageEncoding msg wr pver enc = (msg, wr, None) /\
  (let '(_, r', _) := wire.SotoDecode MessageEncoding msg r pver enc in
   List.length r - List.length r' = 0) /\
  (let '(_, wr', _) := wire.SotoEncode MessageEncoding msg wr pver enc in
   List.length wr' - List.length wr = 0).
Proof.
  unfold wire.SotoDecode, wire.SotoEncode.
  repeat split; apply Nat.sub_diag.
Qed.

(** C10.  The largest payload of a verack is 0 bytes for every protocol
    version, which is what encoding one writes, and its command is the
    verack command string. *)
Theorem verack_payload_and_command (MessageEncoding : Type)
  (CmdVerAck : string) (msg : wire.MsgVerAck) (wr : wire.Writer) (pver : Z)
  (enc : MessageEncoding) :
  wire.MaxPayloadLength msg pver = 0%Z /\
  wire.Command CmdVerAck msg = CmdVerAck /\
  wire.Command CmdVerAck wire.NewMsgVerAck = CmdVerAck /\
  (let '(_, wr', _) := wire.SotoEncode MessageEncoding msg wr pver enc in
   Z.of_nat (List.length wr' - List.length wr)
   = wire.MaxPayloadLength msg pver).
Proof.
  unfold wire.MaxPayloadLength, wire.Command, wire.SotoEncode.
  repeat split. now rewrite Nat.sub_diag.
Qed.

(** ** Stopping at the first failure *)

Lemma FailFast_ret {A} (a : A) : FailFast (ret a).
Proof. intros t. exists []. simpl. rewrite app_nil_r. now split. Qed.

Lemma FailFast_bind {A B} (m : M A) (k : A -> M B) :
  FailFast m -> (forall a, FailFast (k a)) -> FailFast (bind m k).
Proof.
  intros Hm Hk t. unfold bind. destruct (Hm t) as (evs & E & H).
  destruct (m t) as [t' [a|e]]; simpl in E, H; subst t'.
  - destruct (Hk a (t ++ evs)) as (evs' & E' & H').
    exists (evs ++ evs'). rewrite E', app_assoc. split; [reflexivity|].
    destruct (snd (k a (t ++ evs))) as [b|e].
    + apply Forall_app. now split.
    + destruct H' as (evs0 & ev & -> & F0 & Hev).
      exists (evs ++ evs0), ev. rewrite app_assoc.
      repeat split; [|exact Hev]. apply Forall_app. now split.
  - exists evs. now split.
Qed.

Lemma FailFast_orFail {A} (m : M A) ctx : FailFast m -> FailFast (orFail m ctx).
Proof.
  intros Hm t. unfold orFail. destruct (Hm t) as (evs & E & H).
  exists evs. destruct (m t) as [t' [a|e]]; now split.
Qed.

Lemma FailFast_io {R A} (ask : Trace -> R) ev (res : R -> Res A) :
  (forall r, failed (ev r)
             = match res r with Ok _ => false | Err _ => true end) ->
  FailFast (io ask ev res).
Proof.
  intros H t. exists [ev (ask t)]. split; [reflexivity|].
  unfold io. cbn [snd]. specialize (H (ask t)).
  destruct (res (ask t)) as [a|e].
  - now repeat constructor.
  - exists [], (ev (ask t)). now repeat split.
Qed.

Ltac failfast_step :=
  first
    [ apply FailFast_ret
    | apply FailFast_bind; [|intro]
    | apply FailFast_orFail
    | apply FailFast_io; let r := fresh "r" in
      intros r; try destruct r; reflexivity ].

Lemma teardown_not_failed (T : Trace) :
  Forall (among [KTearDown]) T -> Forall (fun e => failed e = false) T.
Proof.
  apply Forall_impl. intros e He. unfold among in He. simpl in He.
  destruct e; simpl in He; try reflexivity;
    destruct He as [He|[]]; discriminate He.
Qed.

Section FailFastStages.

Variable w : World.

Lemma spawnMiners_failfast n : forall i miners,
  FailFast (spawnMiners w n i miners).
Proof.
  induction n as [|n IH]; intros i miners; simpl.
  - apply FailFast_ret.
  - unfold rpctest_New, SetUp, check. repeat failfast_step. apply IH.
Qed.

Lemma generateBlocks_failfast miners blockCount : forall futures,
  FailFast (generateBlocks miners blockCount futures).
Proof.
  induction miners as [|m ms IH]; intros futures; simpl.
  - apply FailFast_ret.
  - unfold GenerateAsync. repeat failfast_step. apply IH.
Qed.

Lemma waitForBlocks_failfast futures : forall i,
  FailFast (waitForBlocks w futures i).
Proof.
  induction futures as [|f fs IH]; intros i; simpl.
  - apply FailFast_ret.
  - unfold Receive. repeat failfast_step. apply IH.
Qed.

Lemma renderDag_failfast miners : FailFast (renderDag w miners).
Proof.
  unfold renderDag, rpctest_RenderDagsDot, soterutil_DotToSvg,
    soterutil_StripSvgXmlDecl, soterutil_RenderSvgHTML.
  repeat failfast_step.
Qed.

Lemma openOutput_failfast output : FailFast (openOutput w output).
Proof.
  unfold openOutput. apply FailFast_orFail.
  destruct (Nat.eqb _ _).
  - unfold ioutil_TempFile. failfast_step.
  - intros t. unfold os_Stat.
    set (st := EvStat output (w_Stat w t output)).
    assert (H : forall (m : M File), FailFast m ->
              exists evs, fst (m (t ++ [st])) = t ++ evs /\
                match snd (m (t ++ [st])) with
                | Ok _ => Forall (fun e => failed e = false) evs
                | Err _ =>
                    exists evs0 ev,
                      evs = evs0 ++ [ev] /\
                      Forall (fun e => failed e = false) evs0 /\
                      failed ev = true
                end).
    { intros m Hm. destruct (Hm (t ++ [st])) as (evs & E & Hr).
      exists (st :: evs). rewrite E, <- app_assoc. split; [reflexivity|].
      destruct (snd (m (t ++ [st]))) as [fh|e].
      - constructor; [reflexivity | exact Hr].
      - destruct Hr as (evs0 & ev & -> & F0 & Hev).
        exists (st :: evs0), ev. repeat split; [|exact Hev].
        constructor; [reflexivity | exact F0]. }
    destruct (w_Stat w t output) as [[[|]]|e]; apply H;
      unfold ioutil_TempFile, os_OpenFile; failfast_step.
Qed.

Lemma save_failfast data fh : FailFast (save w data fh).
Proof. unfold save, Write, Close, check. repeat failfast_step. Qed.

Lemma runStages_failfast miners blockCount output :
  FailFast (runStages w miners blockCount output).
Proof.
  unfold runStages.
  apply FailFast_bind;
    [unfold rpctest_ConnectNodes, check; repeat failfast_step|intros _].
  apply FailFast_bind; [apply generateBlocks_failfast|intros futures].
  apply FailFast_bind; [apply waitForBlocks_failfast|intros _].
  apply FailFast_bind; [apply renderDag_failfast|intros h].
  apply FailFast_bind; [apply openOutput_failfast|intros fh].
  apply FailFast_bind; [|intros _; apply FailFast_ret].
  apply FailFast_orFail, save_failfast.
Qed.

End FailFastStages.

(** X1.  A run returns an error exactly when a call failed, [os.Stat] and
    [TearDown] apart.  The failed call is then the only one that failed, and
    nothing is called after it but the deferred [TearDown]s. *)
Theorem run_stops_at_first_failure w minerCount blockCount output t :
  exists evs,
    fst (runNet w minerCount blockCount output t) = t ++ evs /\
    (snd (snd (runNet w minerCount blockCount output t)) = None <->
     Forall (fun e => failed e = false) evs) /\
    match snd (runNet w minerCount blockCount output t) with
    | (_, None) => True
    | (name, Some _) =>
        name = ""%string /\
        exists evs0 ev T,
          evs = evs0 ++ ev :: T /\
          Forall (fun e => failed e = false) evs0 /\
          failed ev = true /\
          Forall (among [KTearDown]) T
    end.
Proof.
  assert (Hnot : forall evs0 ev T,
            failed ev = true ->
            ~ Forall (fun e => failed e = false) (evs0 ++ ev :: T)).
  { intros evs0 ev T Hev F. apply Forall_app in F. destruct F as [_ F].
    inversion F as [|? ? Hf _]. rewrite Hev in Hf. discriminate Hf. }
  unfold runNet, runNetM, bind, defer.
  destruct (spawnMiners_failfast w (Z.to_nat minerCount) 0 [] t)
    as (S & ES & HS).
  destruct (spawnMiners w _ 0 [] t) as [t1 [miners|e]];
    simpl in ES, HS; subst t1.
  - destruct (runStages_failfast w miners blockCount output (t ++ S))
      as (B & EB & HB).
    destruct (runStages w miners blockCount output (t ++ S)) as [t2 r].
    simpl in EB, HB. subst t2.
    destruct (tearDownMiners_spec w miners ((t ++ S) ++ B))
      as (T & -> & FT & _).
    exists (S ++ B ++ T). destruct r as [name|e]; cbn [fst snd].
    + split; [app_eq|]. split; [|exact I]. split; [|reflexivity].
      intros _. repeat (apply Forall_app; split); try assumption.
      now apply teardown_not_failed.
    + destruct HB as (evs0 & ev & -> & F0 & Hev).
      assert (Eq : S ++ (evs0 ++ [ev]) ++ T = (S ++ evs0) ++ ev :: T)
        by app_eq.
      split; [app_eq|]. split.
      * split; [discriminate|]. rewrite Eq. intros F.
        now apply Hnot in F.
      * split; [reflexivity|]. exists (S ++ evs0), ev, T.
        repeat split; try assumption. apply Forall_app. now split.
  - destruct HS as (evs0 & ev & -> & F0 & Hev).
    exists (evs0 ++ [ev]). cbn [fst snd]. split; [reflexivity|]. split.
    + split; [discriminate|]. intros F. now apply Hnot in F.
    + split; [reflexivity|]. exists evs0, ev, []. now repeat split.
Qed.

Lemma run_stops_at_first_failure_witness :
  snd (snd (runNet calm 1 50 "" [])) = None /\
  exists evs,
    fst (runNet calm 1 50 "" []) = [] ++ evs /\
    Forall (fun e => failed e = false) evs.
Proof.
  destruct (run_stops_at_first_failure calm 1 50 "" [])
    as (evs & E & Hiff & _).
  split; [reflexivity|]. exists evs. split; [exact E|].
  apply Hiff. reflexivity.
Defined.

Ltac list_eq :=
  repeat first [rewrite <- app_assoc | progress (cbn [fst snd app])];
  repeat rewrite app_nil_r; reflexivity.

(** ** The spawn loop *)

Lemma provisioning_step i n :
  provisioning i (S n)
  = EvNew i None :: EvSetUp (mkHarness i) None :: provisioning (S i) n.
Proof. reflexivity. Qed.

(** What the spawn loop calls and returns. *)
Lemma spawnMiners_anatomy w n : forall i miners t,
  match spawnMiners w n i miners t with
  | (t', Ok ms) =>
      t' = t ++ provisioning i n /\
      ms = miners ++ map mkHarness (seq i n)
  | (t', Err msg) =>
      exists k e,
        k < n /\
        ((t' = t ++ provisioning i k ++ [EvNew (i + k) (Some e)] /\
          msg = ("unable to create mining node " ++ itoa (i + k)
                 ++ ": " ++ e)%string) \/
         (t' = t ++ provisioning i k
                 ++ [EvNew (i + k) None;
                     EvSetUp (mkHarness (i + k)) (Some e)] /\
          msg = ("unable to complete mining node " ++ itoa (i + k)
                 ++ " setup: " ++ e)%string))
  end.
Proof.
  induction n as [|n IH]; intros i miners t.
  - simpl. unfold ret. now rewrite !app_nil_r.
  - cbn [spawnMiners]. unfold bind, orFail, rpctest_New, SetUp, io, check.
    destruct (w_New w t) as [e|].
    { exists 0, e. rewrite Nat.add_0_r. split; [lia|]. left. now split. }
    destruct (w_SetUp w _ (mkHarness i)) as [e|].
    { exists 0, e. rewrite Nat.add_0_r. split; [lia|]. right.
      rewrite <- app_assoc. now split. }
    specialize (IH (S i) (miners ++ [mkHarness i])
                  ((t ++ [EvNew i None]) ++ [EvSetUp (mkHarness i) None])).
    destruct (spawnMiners w n (S i) _ _) as [t' [ms|msg]].
    + destruct IH as [-> ->]. rewrite provisioning_step.
      split; [app_eq|]. now rewrite <- app_assoc.
    + destruct IH as (k & e & Hk & H). exists (S k), e. split; [lia|].
      rewrite provisioning_step, Nat.add_succ_r.
      destruct H as [[-> ->]|[-> ->]]; [left|right]; split;
        solve [app_eq | reflexivity].
Qed.

(** X2.  The spawn loop provisions the miners one after the other, each set
    up right after its creation.  When it fails at miner [k] it has fully
    provisioned the miners in front of [k] and no other, it makes no further
    call, and its error cites [k] and tells creation from setup. *)
Theorem spawn_loop_is_sequential w n : forall i miners t,
  match spawnMiners w n i miners t with
  | (t', Ok ms) =>
      t' = t ++ provisioning i n /\
      ms = miners ++ map mkHarness (seq i n)
  | (t', Err msg) =>
      exists k e,
        k < n /\
        ((t' = t ++ provisioning i k ++ [EvNew (i + k) (Some e)] /\
          msg = ("unable to create mining node " ++ itoa (i + k)
                 ++ ": " ++ e)%string) \/
         (t' = t ++ provisioning i k
                 ++ [EvNew (i + k) None;
                     EvSetUp (mkHarness (i + k)) (Some e)] /\
          msg = ("unable to complete mining node " ++ itoa (i + k)
                 ++ " setup: " ++ e)%string))
  end.
Proof. exact (spawnMiners_anatomy w n). Qed.

(** ** A run that succeeds *)

Section Success.

Variable w : World.

Lemma runStages_ok miners blockCount output t t' name :
  runStages w miners blockCount output t = (t', Ok name) ->
  exists W dot svg svgEmbed h O,
    t' = t ++ [EvConnectNodes miners None]
           ++ map (fun m => EvGenerateAsync m (uint32 blockCount)) miners
           ++ W
           ++ [EvRenderDagsDot miners (Ok dot); EvDotToSvg dot (Ok svg);
               EvStripSvgXmlDecl svg (Ok svgEmbed);
               EvRenderSvgHTML svgEmbed "dag" (Ok h)]
           ++ O
           ++ [EvWrite (mkFile name) h None; EvClose (mkFile name) None] /\
    received W = map (futureOf blockCount) miners /\
    Forall succeeded W /\
    Forall (among [KOpen]) O /\ opened O = [name].
Proof.
  rewrite runStages_unfold. cbv zeta.
  destruct (w_ConnectNodes w t miners) as [e|]; [discriminate|].
  set (t2 := (t ++ [EvConnectNodes miners None]) ++ _).
  destruct (waitForBlocks_spec w (map (futureOf blockCount) miners) 0 t2)
    as (W & EW & HW).
  destruct (waitForBlocks w _ 0 t2) as [t3 [[]|e]]; [|discriminate].
  simpl in EW, HW. subst t3. destruct HW as [HW FW].
  rewrite renderDag_unfold. cbv zeta.
  destruct (w_RenderDagsDot w _ miners) as [dot|e]; [|discriminate].
  destruct (w_DotToSvg w _ dot) as [svg|e]; [|discriminate].
  destruct (w_StripSvgXmlDecl w _ svg) as [svgEmbed|e]; [|discriminate].
  destruct (w_RenderSvgHTML w _ svgEmbed "dag") as [h|e]; [|discriminate].
  destruct (openOutput w output _) as [t5 [fh|e]] eqn:Eo; [|discriminate].
  destruct (openOutput_ok _ _ _ _ _ Eo) as (O & -> & FO & HO).
  destruct (save w h fh _) as [t6 [[]|e]] eqn:Es; [|discriminate].
  apply save_ok in Es. subst t6. intros [= <- <-].
  exists W, dot, svg, svgEmbed, h, O. destruct fh as [name].
  split; [unfold t2; app_eq|]. now repeat split.
Qed.

End Success.

(** X3.  A run that succeeds has made, in this order and with success: the
    provisioning of all N miners; one [ConnectNodes] on all of them; one
    [GenerateAsync] per miner; one [Receive] per future, in the order of the
    miners; the four rendering calls, each on the result of the one before;
    the opening of the destination; the [Write] of the document that
    [RenderSvgHTML] returned to the file whose name is returned, and its
    [Close]; and the [TearDown] of all N miners last. *)
Theorem successful_run_anatomy w minerCount blockCount output t name :
  runNet w minerCount blockCount output [] = (t, (name, None)) ->
  let miners := handles (Z.to_nat minerCount) in
  exists W dot svg svgEmbed h O T,
    t = provisioning 0 (Z.to_nat minerCount)
          ++ [EvConnectNodes miners None]
          ++ map (fun m => EvGenerateAsync m (uint32 blockCount)) miners
          ++ W
          ++ [EvRenderDagsDot miners (Ok dot); EvDotToSvg dot (Ok svg);
              EvStripSvgXmlDecl svg (Ok svgEmbed);
              EvRenderSvgHTML svgEmbed "dag" (Ok h)]
          ++ O
          ++ [EvWrite (mkFile name) h None; EvClose (mkFile name) None]
          ++ T /\
    received W = map (futureOf blockCount) miners /\
    Forall succeeded W /\
    Forall (among [KOpen]) O /\ opened O = [name] /\
    Forall (among [KTearDown]) T /\ teardowns T = miners.
Proof.
  intros H miners. unfold runNet, runNetM, bind, defer in H.
  assert (Hs := spawnMiners_anatomy w (Z.to_nat minerCount) 0 [] []).
  destruct (spawnMiners w _ 0 [] []) as [t1 [ms|e]]; [|discriminate].
  destruct Hs as [-> ->]. cbn [app] in H. fold (handles (Z.to_nat minerCount)) in H.
  fold miners in H.
  destruct (runStages w miners blockCount output _) as [t2 r] eqn:Er.
  destruct r as [name'|e]; [|discriminate]. injection H as <- <-.
  apply runStages_ok in Er.
  destruct Er as (W & dot & svg & svgEmbed & h & O & -> & HW & FW & FO & HO).
  match goal with
  | |- context [tearDownMiners w miners ?x] =>
      destruct (tearDownMiners_spec w miners x) as (T & ET & FT & HT)
  end.
  exists W, dot, svg, svgEmbed, h, O, T. rewrite ET.
  split; [list_eq|]. now repeat split.
Qed.

Lemma successful_run_anatomy_witness :
  exists W dot svg svgEmbed h O T,
    fst (runNet calm 2 50 "out.html" [])
    = provisioning 0 2
        ++ [EvConnectNodes (handles 2) None]
        ++ map (fun m => EvGenerateAsync m (uint32 50)) (handles 2)
        ++ W
        ++ [EvRenderDagsDot (handles 2) (Ok dot); EvDotToSvg dot (Ok svg);
            EvStripSvgXmlDecl svg (Ok svgEmbed);
            EvRenderSvgHTML svgEmbed "dag" (Ok h)]
        ++ O
        ++ [EvWrite (mkFile "out.html") h None;
            EvClose (mkFile "out.html") None]
        ++ T /\
    received W = map (futureOf 50) (handles 2) /\
    Forall succeeded W /\
    Forall (among [KOpen]) O /\ opened O = ["out.html"%string] /\
    Forall (among [KTearDown]) T /\ teardowns T = handles 2.
Proof.
  exact (successful_run_anatomy calm 2 50 "out.html"
           (fst (runNet calm 2 50 "out.html" [])) "out.html" eq_refl).
Defined.

(** ** What a run dispatches and when it tears down *)

Lemma received_app a b : received (a ++ b) = received a ++ received b.
Proof. apply flat_map_app. Qed.

Lemma dispatched_generate blockCount miners :
  dispatched (map (fun m => EvGenerateAsync m (uint32 blockCount)) miners)
  = map (futureOf blockCount) miners.
Proof.
  induction miners as [|m ms IH]; simpl; [reflexivity|]. now rewrite IH.
Qed.

Lemma dispatched_connect hs r (l : Trace) :
  dispatched (EvConnectNodes hs r :: l) = dispatched l.
Proof. reflexivity. Qed.

Lemma receives_nil (W : Trace) :
  Forall (among [KReceive]) W -> received W = [] -> W = [].
Proof.
  intros F. destruct F as [|e W He _]; [reflexivity|].
  unfold among in He. simpl in He.
  destruct e; simpl in He; try (destruct He as [He|[]]; discriminate He).
  discriminate.
Qed.

Section Prefix.

Variable w : World.

Lemma stagesTail_emits miners output :
  Emits (among [KRender; KOpen; KSave])
    (h <- renderDag w miners ;;
     fh <- openOutput w output ;;
     orFail (save w h fh)
       (fun err => ("failed to save HTML file: " ++ err)%string) ;;;
     ret (Name fh)).
Proof.
  apply Emits_bind; [|intros h].
  { apply among_incl with (ks := [KRender]); [incl_kinds|].
    apply renderDag_emits. }
  apply Emits_bind; [|intros fh].
  { apply among_incl with (ks := [KOpen]); [incl_kinds|].
    apply openOutput_emits. }
  apply Emits_bind; [|intros _; apply Emits_ret].
  apply Emits_orFail.
  apply among_incl with (ks := [KSave]); [incl_kinds|]. apply save_emits.
Qed.

(** The stages start with the connection; when it fails nothing follows,
    and otherwise all the dispatches follow, then receives of a prefix of
    the futures, then rendering and file calls. *)
Lemma runStages_prefix miners blockCount output t :
  exists W R,
    fst (runStages w miners blockCount output t)
    = t ++ EvConnectNodes miners (w_ConnectNodes w t miners)
          :: match w_ConnectNodes w t miners with
             | Some _ => []
             | None =>
                 map (fun m => EvGenerateAsync m (uint32 blockCount)) miners
                 ++ W ++ R
             end /\
    Forall (among [KReceive]) W /\
    (exists k, received W = firstn k (map (futureOf blockCount) miners)) /\
    Forall (among [KRender; KOpen; KSave]) R.
Proof.
  unfold runStages, bind at 1, orFail at 1, rpctest_ConnectNodes, io, check.
  destruct (w_ConnectNodes w t miners) as [e|]; cbn [fst snd].
  { exists [], []. split; [reflexivity|]. split; [constructor|].
    split; [now exists 0 | constructor]. }
  unfold bind at 1. rewrite generateBlocks_spec. cbn [app].
  unfold bind at 1.
  set (t2 := (t ++ [EvConnectNodes miners None]) ++ _).
  destruct (waitForBlocks_emits w (map (futureOf blockCount) miners) 0 t2)
    as (W & EW & FW).
  destruct (waitForBlocks_spec w (map (futureOf blockCount) miners) 0 t2)
    as (W' & EW' & HW).
  rewrite EW in EW'. apply app_inv_head in EW'. subst W'.
  assert (Hk : exists k,
             received W = firstn k (map (futureOf blockCount) miners)).
  { destruct (snd (waitForBlocks w _ 0 t2)) as [[]|msg].
    - destruct HW as [-> _].
      exists (List.length (map (futureOf blockCount) miners)).
      now rewrite firstn_all.
    - destruct HW as (i & _ & _ & _ & _ & _ & _ & -> & _). now exists (S i). }
  destruct (waitForBlocks w _ 0 t2) as [t3 [[]|msg]]; simpl in EW; subst t3.
  - destruct (stagesTail_emits miners output (t2 ++ W)) as (R & ER & FR).
    exists W, R. rewrite ER.
    split; [unfold t2; list_eq | now repeat split].
  - exists W, []. cbn [fst].
    split; [unfold t2; list_eq|]. split; [exact FW|].
    split; [exact Hk | constructor].
Qed.

Lemma runStages_connect_failure miners blockCount output t e :
  w_ConnectNodes w t miners = Some e ->
  snd (runStages w miners blockCount output t)
  = Err ("unable to connect nodes: " ++ e)%string.
Proof. intros Hc. rewrite runStages_unfold, Hc. reflexivity. Qed.

End Prefix.

(** X4.  In every run the [TearDown] calls come last: nothing is called
    once teardown has begun, so the miners are alive through generation,
    rendering and saving. *)
Theorem teardown_comes_last w minerCount blockCount output t :
  exists before T,
    fst (runNet w minerCount blockCount output t) = t ++ before ++ T /\
    Forall (fun e => kind e <> KTearDown) before /\
    Forall (among [KTearDown]) T /\
    (T = [] \/ teardowns T = handles (Z.to_nat minerCount)).
Proof.
  rewrite fst_runNet.
  destruct (runNetM_trace w minerCount blockCount output t) as (S & FS & H).
  assert (Hn : forall ks evs, ~ In KTearDown ks -> Forall (among ks) evs ->
                              Forall (fun e => kind e <> KTearDown) evs).
  { intros ks evs Hk. apply Forall_impl. intros e He Ee.
    unfold among in He. rewrite Ee in He. exact (Hk He). }
  destruct (spawnMiners w _ 0 [] t) as [t1 [miners|e]].
  - destruct H as (Hm & -> & B & T & FB & FT & HT & _ & ->).
    exists (S ++ B), T. split; [list_eq|]. split; [|split].
    + apply Forall_app. split.
      * revert FS. apply Hn. simpl. intuition discriminate.
      * revert FB. apply Hn. simpl. intuition discriminate.
    + exact FT.
    + right. now rewrite HT.
  - destruct H as [-> ->]. exists S, []. split; [list_eq|].
    split; [|split; [constructor | now left]].
    revert FS. apply Hn. simpl. intuition discriminate.
Qed.

(** X5.  When the miners cannot be connected, the run returns the
    connection error under its context; no block generation is requested,
    nothing is rendered or opened, and the miners are torn down. *)
Theorem connect_failure_aborts w minerCount blockCount output t1 miners e :
  spawnMiners w (Z.to_nat minerCount) 0 [] [] = (t1, Ok miners) ->
  w_ConnectNodes w t1 miners = Some e ->
  exists T,
    runNet w minerCount blockCount output []
    = (t1 ++ EvConnectNodes miners (Some e) :: T,
       (""%string, Some ("unable to connect nodes: " ++ e)%string)) /\
    Forall (among [KTearDown]) T /\ teardowns T = miners.
Proof.
  intros Hs Hc. unfold runNet, runNetM, bind, defer. rewrite Hs.
  destruct (runStages_prefix w miners blockCount output t1)
    as (W & R & E & _).
  assert (He := runStages_connect_failure w miners blockCount output t1 e Hc).
  destruct (runStages w miners blockCount output t1) as [t2 r].
  cbn [fst snd] in E, He. subst t2 r. rewrite Hc.
  destruct (tearDownMiners_spec w miners
              (t1 ++ [EvConnectNodes miners (Some e)])) as (T & -> & FT & HT).
  exists T. split; [|now split]. f_equal. list_eq.
Qed.

Lemma connect_failure_aborts_witness :
  exists T,
    runNet stormy 2 50 "" []
    = (provisioning 0 2
         ++ EvConnectNodes (handles 2) (Some "refused"%string) :: T,
       (""%string, Some "unable to connect nodes: refused"%string)) /\
    Forall (among [KTearDown]) T /\ teardowns T = handles 2.
Proof.
  exact (connect_failure_aborts stormy 2 50 "" (provisioning 0 2) (handles 2)
           "refused" eq_refl eq_refl).
Defined.

(** X6.  With a miner count of zero or less the spawn loop does nothing and
    the run is not refused: it connects the empty list of miners and, when
    that succeeds, renders and saves without any miner created, asked for
    blocks or torn down. *)
Theorem run_without_miners w minerCount blockCount output :
  (minerCount <= 0)%Z ->
  exists R,
    fst (runNet w minerCount blockCount output [])
    = EvConnectNodes [] (w_ConnectNodes w [] []) :: R /\
    Forall (among [KRender; KOpen; KSave]) R.
Proof.
  intros Hle. rewrite fst_runNet. unfold runNetM, bind, defer.
  replace (Z.to_nat minerCount) with 0 by lia. cbn [spawnMiners ret].
  destruct (runStages_prefix w [] blockCount output [])
    as (W & R & E & FW & (k & Hk) & FR).
  destruct (runStages w [] blockCount output []) as [t2 r].
  cbn [fst] in E. subst t2. cbn [fst tearDownMiners app map].
  rewrite firstn_nil in Hk. apply (receives_nil W FW) in Hk. subst W.
  destruct (w_ConnectNodes w [] []) as [e|].
  - exists []. split; [reflexivity | constructor].
  - exists R. now split.
Qed.

Lemma run_without_miners_witness :
  exists R,
    fst (runNet calm (-3) 50 "" [])
    = EvConnectNodes [] (w_ConnectNodes calm [] []) :: R /\
    Forall (among [KRender; KOpen; KSave]) R.
Proof.
  apply (run_without_miners calm (-3) 50 ""). lia.
Defined.

Lemma runNet_dispatched w minerCount blockCount output :
  dispatched (fst (runNet w minerCount blockCount output [])) = [] \/
  dispatched (fst (runNet w minerCount blockCount output []))
  = map (futureOf blockCount) (handles (Z.to_nat minerCount)).
Proof.
  rewrite fst_runNet.
  destruct (runNetM_trace w minerCount blockCount output []) as (S & FS & H).
  assert (ES : dispatched S = []) by kinds_nil.
  destruct (spawnMiners w _ 0 [] []) as [t1 [miners|e]].
  - destruct H as (Hm & -> & B & T & _ & FT & _ & EB & ->).
    destruct (runStages_prefix w miners blockCount output ([] ++ S))
      as (W & R & E & FW & _ & FR).
    rewrite E in EB. apply app_inv_head in EB. subst B.
    assert (ET : dispatched T = []) by kinds_nil.
    assert (EW : dispatched W = []) by kinds_nil.
    assert (ER : dispatched R = []) by kinds_nil.
    cbn [fst app].
    destruct (w_ConnectNodes w _ miners) as [e|].
    + left. cbn [app]. rewrite dispatched_app, ES, dispatched_connect.
      exact ET.
    + right. rewrite dispatched_app, ES, dispatched_connect.
      rewrite !dispatched_app, dispatched_generate, EW, ER, ET, !app_nil_r.
      now subst miners.
  - destruct H as [-> ->]. left. exact ES.
Qed.

(** X7.  The number of blocks asked of a miner is [blockCount] converted to
    32 bits: it lies in [0, 2^32), it is congruent to [blockCount] modulo
    2^32, and it is [blockCount] itself when that fits.  Every request goes
    to a miner of the run. *)
Theorem requested_block_count w minerCount blockCount output f :
  In f (dispatched (fst (runNet w minerCount blockCount output []))) ->
  In (fut_node f) (handles (Z.to_nat minerCount)) /\
  fut_blocks f = (blockCount mod 2 ^ 32)%Z /\
  (0 <= fut_blocks f < 2 ^ 32)%Z /\
  ((0 <= blockCount < 2 ^ 32)%Z -> fut_blocks f = blockCount).
Proof.
  intros Hin.
  destruct (runNet_dispatched w minerCount blockCount output) as [E|E];
    rewrite E in Hin; [contradiction|].
  apply in_map_iff in Hin. destruct Hin as (h & <- & Hh).
  unfold futureOf, uint32. cbn [fut_node fut_blocks].
  split; [exact Hh|]. split; [reflexivity|].
  split; [apply Z.mod_pos_bound; lia|]. intros Hr. now apply Z.mod_small.
Qed.

Lemma requested_block_count_witness :
  fut_blocks (mkFuture (mkHarness 0) 4294967295) = ((-1) mod 2 ^ 32)%Z /\
  (0 <= fut_blocks (mkFuture (mkHarness 0) 4294967295) < 2 ^ 32)%Z.
Proof.
  destruct (requested_block_count calm 1 (-1) ""
              (mkFuture (mkHarness 0) 4294967295)) as (_ & H1 & H2 & _).
  - vm_compute. now left.
  - now split.
Defined.

(** ** Files *)

Lemma closed_app a b : closed (a ++ b) = closed a ++ closed b.
Proof. apply flat_map_app. Qed.

Lemma statted_app a b : statted (a ++ b) = statted a ++ statted b.
Proof. apply flat_map_app. Qed.


Section Files.

Variable w : World.

(** [save] closes the file only when the write went through, and returns
    the first error as it is. *)
Lemma save_cases data fh t :
  (exists e, save w data fh t
             = (t ++ [EvWrite fh data (Some e)], Err e)) \/
  (exists e, save w data fh t
             = (t ++ [EvWrite fh data None; EvClose fh (Some e)], Err e)) \/
  save w data fh t
  = (t ++ [EvWrite fh data None; EvClose fh None], Ok tt).
Proof.
  unfold save, bind, Write, Close, io, ret, check.
  destruct (w_Write w t fh data) as [e|]; [left; now exists e|right].
  destruct (w_Close w _ fh) as [e|]; [left; exists e|right];
    now rewrite <- app_assoc.
Qed.

Lemma openOutput_events output t O :
  fst (openOutput w output t) = t ++ O ->
  List.length (opened O) <= 1 /\
  statted O = (if String.eqb output "" then [] else [output]).
Proof.
  intros H. destruct (string_dec output "") as [->|Hne].
  - rewrite openOutput_empty in H. cbn [fst] in H.
    apply app_inv_head in H. subst O. cbn [String.eqb].
    split; [|reflexivity].
    destruct (w_TempFile w t "" "dag_*.html"); simpl; lia.
  - assert (En : String.eqb output "" = false)
      by now apply String.eqb_neq.
    rewrite En.
    destruct (w_Stat w t output) as [[[|]]|e] eqn:Es.
    + rewrite (openOutput_directory w output t _ Hne Es eq_refl) in H.
      cbn [fst] in H. rewrite <- app_assoc in H.
      apply app_inv_head in H. subst O. split; [|reflexivity].
      destruct (w_TempFile w _ output "dag_*.html"); simpl; lia.
    + assert (Hf : forall info, w_Stat w t output = Ok info ->
                                IsDir info = false).
      { intros info Ei. rewrite Es in Ei. now injection Ei as <-. }
      rewrite (openOutput_file w output t Hne Hf), Es in H.
      cbn [fst] in H. rewrite <- app_assoc in H.
      apply app_inv_head in H. subst O. split; [|reflexivity].
      destruct (w_OpenFile w _ output openFlags perm0644); simpl; lia.
    + assert (Hf : forall info, w_Stat w t output = Ok info ->
                                IsDir info = false).
      { intros info Ei. rewrite Es in Ei. discriminate Ei. }
      rewrite (openOutput_file w output t Hne Hf), Es in H.
      cbn [fst] in H. rewrite <- app_assoc in H.
      apply app_inv_head in H. subst O. split; [|reflexivity].
      destruct (w_OpenFile w _ output openFlags perm0644); simpl; lia.
Qed.

(** The file calls of the stages: the calls of one [openOutput] at most,
    then the calls of one [save] at most, on the file just opened. *)
Lemma runStages_files miners blockCount output t :
  exists P O V,
    fst (runStages w miners blockCount output t) = t ++ P ++ O ++ V /\
    Forall (among [KConnect; KGenerate; KReceive; KRender]) P /\
    Forall (among [KOpen]) O /\
    Forall (among [KSave]) V /\
    (O = [] \/ exists t4, fst (openOutput w output t4) = t4 ++ O) /\
    (V = [] \/
     exists h fh t5,
       opened O = [Name fh] /\
       fst (save w h fh t5) = t5 ++ V /\
       snd (runStages w miners blockCount output t)
       = match snd (save w h fh t5) with
         | Ok _ => Ok (Name fh)
         | Err e => Err ("failed to save HTML file: " ++ e)%string
         end).
Proof.
  rewrite runStages_unfold. cbv zeta.
  set (c := EvConnectNodes miners (w_ConnectNodes w t miners)).
  set (G := map (fun h => EvGenerateAsync h (uint32 blockCount)) miners).
  assert (Fc : Forall (among [KConnect; KGenerate; KReceive; KRender]) [c]).
  { constructor; [now left | constructor]. }
  assert (FG : Forall (among [KConnect; KGenerate; KReceive; KRender]) G).
  { apply Forall_forall. intros e He. apply in_map_iff in He.
    destruct He as (h & <- & _). right. now left. }
  destruct (w_ConnectNodes w t miners) as [e|].
  { exists [c], [], []. split; [list_eq|]. split; [exact Fc|].
    split; [constructor|]. split; [constructor|]. split; now left. }
  destruct (waitForBlocks_emits w (map (futureOf blockCount) miners) 0
              ((t ++ [c]) ++ G)) as (W & EW & FW).
  apply (Forall_among_weaken _ [KConnect; KGenerate; KReceive; KRender])
    in FW; [|incl_kinds].
  destruct (waitForBlocks w _ 0 _) as [t3 [[]|e]]; simpl in EW; subst t3.
  2:{ exists ([c] ++ G ++ W), [], []. split; [list_eq|].
      split; [repeat (apply Forall_app; split); assumption|].
      split; [constructor|]. split; [constructor|]. split; now left. }
  destruct (renderDag_emits w miners (((t ++ [c]) ++ G) ++ W))
    as (R & ER & FR).
  apply (Forall_among_weaken _ [KConnect; KGenerate; KReceive; KRender])
    in FR; [|incl_kinds].
  assert (FP : Forall (among [KConnect; KGenerate; KReceive; KRender])
                 ([c] ++ G ++ W ++ R)).
  { repeat (apply Forall_app; split); assumption. }
  destruct (renderDag w miners _) as [t4 [h|e]]; simpl in ER; subst t4.
  2:{ exists ([c] ++ G ++ W ++ R), [], []. split; [list_eq|].
      split; [exact FP|].
      split; [constructor|]. split; [constructor|]. split; now left. }
  set (t4 := (((t ++ [c]) ++ G) ++ W) ++ R).
  destruct (openOutput_emits w output t4) as (O & EO & FO).
  destruct (openOutput w output t4) as [t5 [fh|e]] eqn:Eo;
    simpl in EO; subst t5.
  2:{ exists ([c] ++ G ++ W ++ R), O, []. split; [unfold t4; list_eq|].
      split; [exact FP|]. split; [exact FO|]. split; [constructor|].
      split; [right; exists t4; now rewrite Eo | now left]. }
  destruct (openOutput_ok _ _ _ _ _ Eo) as (O' & EO' & _ & HO).
  apply app_inv_head in EO'. subst O'.
  destruct (save_emits w h fh (t4 ++ O)) as (V & EV & FV).
  exists ([c] ++ G ++ W ++ R), O, V.
  split.
  { destruct (save w h fh (t4 ++ O)) as [t6 [[]|e]]; simpl in EV |- *;
      subst t6; unfold t4; list_eq. }
  split; [exact FP|]. split; [exact FO|]. split; [exact FV|].
  split; [right; exists t4; now rewrite Eo|].
  right. exists h, fh, (t4 ++ O). split; [exact HO|]. split; [exact EV|].
  now destruct (save w h fh (t4 ++ O)) as [t6 [[]|e]].
Qed.

End Files.

(** The history of a run, with its file calls apart. *)
Lemma runNet_files w minerCount blockCount output :
  exists S P O V T,
    fst (runNet w minerCount blockCount output []) = S ++ P ++ O ++ V ++ T /\
    Forall (among [KNew; KSetUp]) S /\
    Forall (among [KConnect; KGenerate; KReceive; KRender]) P /\
    Forall (among [KOpen]) O /\
    Forall (among [KSave]) V /\
    Forall (among [KTearDown]) T /\
    (O = [] \/ exists t4, fst (openOutput w output t4) = t4 ++ O) /\
    (V = [] \/
     exists h fh t5,
       teardowns T = handles (Z.to_nat minerCount) /\
       opened O = [Name fh] /\
       fst (save w h fh t5) = t5 ++ V /\
       snd (runNet w minerCount blockCount output [])
       = match snd (save w h fh t5) with
         | Ok _ => (Name fh, None)
         | Err e => (""%string,
                     Some ("failed to save HTML file: " ++ e)%string)
         end).
Proof.
  rewrite fst_runNet, snd_runNet.
  destruct (runNetM_trace w minerCount blockCount output []) as (S & FS & H).
  destruct (spawnMiners w _ 0 [] []) as [t1 [miners|e]].
  - destruct H as (Hm & -> & B & T & _ & FT & HT & EB & ->).
    destruct (runStages_files w miners blockCount output ([] ++ S))
      as (P & O & V & E & FP & FO & FV & HO & HV).
    rewrite E in EB. apply app_inv_head in EB. subst B.
    exists S, P, O, V, T. split; [list_eq|].
    do 5 (split; [assumption|]). split; [exact HO|].
    destruct HV as [->|(h & fh & t5 & Ho & Es & Er)]; [now left|right].
    exists h, fh, t5. cbn [snd]. rewrite Er, HT, Hm.
    repeat split; try assumption.
    now destruct (snd (save w h fh t5)).
  - destruct H as [-> ->]. exists S, [], [], [], [].
    split; [list_eq|]. split; [exact FS|].
    do 4 (split; [constructor|]). split; now left.
Qed.

(** X8.  When the write of the document fails, the run returns the write
    error under the context of saving, the file it has opened is never
    closed, and the miners are torn down all the same. *)
Theorem write_failure_leaves_file_open
  w minerCount blockCount output fh data e :
  In (EvWrite fh data (Some e))
     (fst (runNet w minerCount blockCount output [])) ->
  snd (runNet w minerCount blockCount output [])
  = (""%string, Some ("failed to save HTML file: " ++ e)%string) /\
  closed (fst (runNet w minerCount blockCount output [])) = [] /\
  opened (fst (runNet w minerCount blockCount output [])) = [Name fh] /\
  teardowns (fst (runNet w minerCount blockCount output []))
  = handles (Z.to_nat minerCount).
Proof.
  intros Hin.
  destruct (runNet_files w minerCount blockCount output)
    as (S & P & O & V & T & E & FS & FP & FO & FV & FT & _ & HV).
  rewrite E in Hin |- *.
  assert (Hno : forall ks evs, ~ In KSave ks -> Forall (among ks) evs ->
                  ~ In (EvWrite fh data (Some e)) evs).
  { intros ks evs Hn F Hi. rewrite Forall_forall in F.
    exact (Hn (F _ Hi)). }
  assert (HinV : In (EvWrite fh data (Some e)) V).
  { repeat (apply in_app_or in Hin; destruct Hin as [Hin|Hin]);
      try exact Hin; exfalso.
    - revert Hin. eapply Hno; [|exact FS]. simpl. intuition discriminate.
    - revert Hin. eapply Hno; [|exact FP]. simpl. intuition discriminate.
    - revert Hin. eapply Hno; [|exact FO]. simpl. intuition discriminate.
    - revert Hin. eapply Hno; [|exact FT]. simpl. intuition discriminate. }
  destruct HV as [->|(h & fh' & t5 & HT & HO & Es & Er)]; [contradiction|].
  rewrite Er. clear Er.
  assert (closed S = []) by kinds_nil.
  assert (closed P = []) by kinds_nil.
  assert (closed O = []) by kinds_nil.
  assert (closed T = []) by kinds_nil.
  assert (opened S = []) by kinds_nil.
  assert (opened P = []) by kinds_nil.
  assert (opened V = []) by kinds_nil.
  assert (opened T = []) by kinds_nil.
  assert (teardowns S = []) by kinds_nil.
  assert (teardowns P = []) by kinds_nil.
  assert (teardowns O = []) by kinds_nil.
  assert (teardowns V = []) by kinds_nil.
  destruct (save_cases w h fh' t5) as [[e' Ec]|[[e' Ec]|Ec]];
    rewrite Ec in Es |- *; cbn [fst snd] in Es |- *;
    apply app_inv_head in Es; subst V.
  - destruct HinV as [[= -> -> ->]|[]].
    rewrite !closed_app, !opened_app, !teardowns_app.
    repeat rewrite_nil. rewrite ?HO, ?HT. now repeat split.
  - destruct HinV as [Hd|[Hd|[]]]; discriminate Hd.
  - destruct HinV as [Hd|[Hd|[]]]; discriminate Hd.
Qed.

Lemma write_failure_leaves_file_open_witness :
  snd (runNet diskFull 2 50 "out.html" [])
  = (""%string,
     Some "failed to save HTML file: no space left on device"%string) /\
  closed (fst (runNet diskFull 2 50 "out.html" [])) = [] /\
  opened (fst (runNet diskFull 2 50 "out.html" [])) = ["out.html"%string] /\
  teardowns (fst (runNet diskFull 2 50 "out.html" [])) = handles 2.
Proof.
  apply (write_failure_leaves_file_open diskFull 2 50 "out.html"
           (mkFile "out.html") [] "no space left on device").
  vm_compute. repeat first [left; reflexivity | right].
Defined.

(** X9.  A run opens one file at most, and consults [os.Stat] only about
    the path it was given, once at most, and never when that path is
    empty. *)
Theorem one_file_at_most w minerCount blockCount output :
  List.length (opened (fst (runNet w minerCount blockCount output []))) <= 1
  /\
  (statted (fst (runNet w minerCount blockCount output [])) = [] \/
   (output <> ""%string /\
    statted (fst (runNet w minerCount blockCount output [])) = [output])).
Proof.
  destruct (runNet_files w minerCount blockCount output)
    as (S & P & O & V & T & -> & FS & FP & FO & FV & FT & HO & _).
  rewrite !opened_app, !statted_app.
  assert (opened S = []) as -> by kinds_nil.
  assert (opened P = []) as -> by kinds_nil.
  assert (opened V = []) as -> by kinds_nil.
  assert (opened T = []) as -> by kinds_nil.
  assert (statted S = []) as -> by kinds_nil.
  assert (statted P = []) as -> by kinds_nil.
  assert (statted V = []) as -> by kinds_nil.
  assert (statted T = []) as -> by kinds_nil.
  rewrite !app_nil_r. cbn [app].
  destruct HO as [->|(t4 & Eo)]; [split; [simpl; lia | now left]|].
  apply openOutput_events in Eo. destruct Eo as [Hl Hs].
  split; [exact Hl|]. rewrite Hs.
  destruct (String.eqb output "") eqn:En; [now left|right].
  apply String.eqb_neq in En. now split.
Qed.


(** ** A verack on the wire *)

(** X11.  A verack survives the wire: decoding, into any receiver, the
    bytes its encoding wrote, followed by any other bytes, gives the message
    back without error and leaves those other bytes unread. *)
Theorem verack_round_trip (MessageEncoding : Type)
  (msg receiver : wire.MsgVerAck) (rest : bytes) (pver : Z)
  (enc : MessageEncoding) :
  let '(_, written, encErr) :=
    wire.SotoEncode MessageEncoding msg [] pver enc in
  let '(decoded, unread, decErr) :=
    wire.SotoDecode MessageEncoding receiver (written ++ rest) pver enc in
  encErr = None /\ decErr = None /\ decoded = msg /\ unread = rest.
Proof.
  unfold wire.SotoEncode, wire.SotoDecode. cbn [app].
  repeat split. now destruct msg, receiver.
Qed.
